(** * TOON gateway: the codec wrappers, the Redis cache helpers and the
      Express middleware of [src/toon-codec.js], [src/cache.js] and
      [src/app.js], embedded as Rocq functions with explicit state. *)

From stdpp Require Import base strings list gmap option pretty.
From Stdlib Require Import ZArith Ascii.

Set Warnings "-register-all".
Local Open Scope string_scope.

(** ** JavaScript values and outcomes *)

(** A call either returns or throws; [E] is the type of thrown errors. *)
Inductive Result (E A : Type) : Type :=
| Ok (a : A)
| Throw (e : E).
Arguments Ok {E A} a.
Arguments Throw {E A} e.

(** A decimal number [mantissa * 10 ^ exponent], or a non-finite one (the
    values JSON text can denote are the finite ones). *)
Inductive Number : Type :=
| Dec (mantissa exponent : Z)
| NonFinite.

(** The JSON-like value tree that [JSON.parse] produces and the codec
    consumes.  Objects keep their keys in insertion order. *)
Inductive Value : Type :=
| VNull
| VBool (b : bool)
| VNumber (n : Number)
| VString (s : string)
| VArray (items : list Value)
| VObject (fields : list (string * Value)).

(** JS truthiness of a value that is a string, [null] or [undefined]. *)
Definition truthy (x : option string) : bool :=
  match x with
  | Some s => negb (String.eqb s "")
  | None => false
  end.

(** [String.prototype.includes]: [sub] occurs somewhere in [s]. *)
Fixpoint includes (s sub : string) : bool :=
  String.prefix sub s ||
  match s with
  | EmptyString => false
  | String _ rest => includes rest sub
  end.

(** ASCII lower-casing, as Node applies to header names. *)
Definition lower_ascii (c : ascii) : ascii :=
  let n := nat_of_ascii c in
  if (65 <=? n)%nat && (n <=? 90)%nat then ascii_of_nat (n + 32) else c.

Fixpoint toLowerCase (s : string) : string :=
  match s with
  | EmptyString => EmptyString
  | String c rest => String (lower_ascii c) (toLowerCase rest)
  end.

(** ** src/toon-codec.js *)

Inductive Delimiter : Type := Comma | Tab | Pipe.
Inductive Folding : Type := FoldOff | FoldSafe.

(** The options objects: every property may be absent. *)
Record EncodeOptions : Type := {
  delimiter : option Delimiter;
  indent : option nat;
  keyFolding : option Folding;
  flattenDepth : option nat
}.

Record DecodeOptions : Type := {
  strict : option bool;
  expandPaths : option Folding;
  indentSize : option nat
}.

(** The literal [{}] used as default parameter value. *)
Definition emptyEncodeOptions : EncodeOptions :=
  {| delimiter := None; indent := None; keyFolding := None; flattenDepth := None |}.
Definition emptyDecodeOptions : DecodeOptions :=
  {| strict := None; expandPaths := None; indentSize := None |}.

(** [encodeToToon(data, options = {})] forwards to [toon.encode]; an
    omitted argument is [None].  The wrapper adds nothing to what the
    library returns or throws, whatever that outcome type [R] is. *)
Definition encodeToToon {R : Type} (toon_encode : Value → EncodeOptions → R)
    (data : Value) (options : option EncodeOptions) : R :=
  toon_encode data (default emptyEncodeOptions options).

(** [decodeFromToon(toonString, options = {})] forwards to [toon.decode]. *)
Definition decodeFromToon {R : Type} (toon_decode : string → DecodeOptions → R)
    (toonString : string) (options : option DecodeOptions) : R :=
  toon_decode toonString (default emptyDecodeOptions options).

(** ** src/cache.js *)

(** The properties of the Express request [req] that the gateway reads. *)
Record Request : Type := {
  method : string;
  path : string;
  originalUrl : string
}.

Module Cache.

(** The events the ioredis client emits and the module listens to. *)
Inductive RedisEvent : Type :=
| OnError | OnConnect | OnReady | OnClose | OnReconnecting.

(** The listeners: each assigns the module variable [redisConnected]. *)
Definition on (ev : RedisEvent) (redisConnected : bool) : bool :=
  match ev with
  | OnError => false
  | OnConnect => true
  | OnReady => true
  | OnClose => false
  | OnReconnecting => false
  end.

Definition generateKey (req : Request) : string :=
  "toon_cache:" +:+ method req +:+ ":" +:+ originalUrl req.

(** The commands the gateway sends to the Redis server. *)
Inductive Command : Type :=
| GET (key : string)
| SET (key value : string) (ex : nat).

(** A promise returned by the client settles one way or the other. *)
Inductive Reply (A : Type) : Type :=
| Resolved (a : A)
| Rejected.
Arguments Resolved {A} a.
Arguments Rejected {A}.

End Cache.
Export Cache.

(** ** src/app.js *)

(** The response object [res]: its status code and its header table,
    which Node keys by lower-cased name. *)
Record Response : Type := {
  statusCode : nat;
  headers : gmap string string
}.

Definition setHeader (name value : string) (res : Response) : Response :=
  {| statusCode := statusCode res;
     headers := <[toLowerCase name := value]> (headers res) |}.

Definition removeHeader (name : string) (res : Response) : Response :=
  {| statusCode := statusCode res;
     headers := delete (toLowerCase name) (headers res) |}.

Definition getHeader (name : string) (res : Response) : option string :=
  headers res !! toLowerCase name.

(** What a handler hands back to Express: a body sent from the cache, or
    control passed on with [next()]. *)
Inductive Handled : Type :=
| Send (res : Response) (body : string)
| Next (res : Response).

(** The cache middleware.  [isRedisConnected] is the module flag at the
    time of the call and [redis_get] the client's [get]; the second
    component lists the Redis commands issued. *)
Definition cacheMiddleware (isRedisConnected : bool)
    (redis_get : string → Reply (option string))
    (req : Request) (res : Response) : Handled * list Command :=
  if negb (String.eqb (method req) "GET") then (Next res, [])
  else if String.eqb (path req) "/health" then (Next res, [])
  else if negb isRedisConnected then
    (Next (setHeader "X-Cache" "UNAVAILABLE" res), [])
  else
    let key := generateKey req in
    match redis_get key with
    | Resolved cachedData =>
        if truthy cachedData then
          (Send (setHeader "Content-Type" "text/toon; charset=utf-8"
                   (setHeader "X-Cache" "HIT" res))
                (default "" cachedData),
           [GET key])
        else (Next (setHeader "X-Cache" "MISS" res), [GET key])
    | Rejected => (Next (setHeader "X-Cache" "ERROR" res), [GET key])
    end.

(** The body an interceptor returns: the encoded text or the buffer it
    was given. *)
Inductive Body : Type :=
| Text (s : string)
| Buffer (bytes : list Byte.byte).

Section Proxy.

(** The collaborators of the interceptor that live outside the
    repository: the errors they throw, [Buffer.prototype.toString]
    with ['utf8'], [JSON.parse], the codec library and the configured
    time to live. *)
Context {E : Type}.
Variable toString_utf8 : list Byte.byte → string.
Variable JSON_parse : string → Result E Value.
Variable toon_encode : Value → EncodeOptions → Result E string.
Variable CACHE_TTL : nat.

(** [proxyOptions.onProxyRes], the function given to
    [responseInterceptor]: the returned body, the response object after
    the header updates and the Redis commands issued. *)
Definition onProxyRes (isRedisConnected : bool)
    (responseBuffer : list Byte.byte) (proxyRes_headers : gmap string string)
    (req : Request) (res : Response) : Body * Response * list Command :=
  let contentType := proxyRes_headers !! "content-type" in
  if truthy contentType && includes (default "" contentType) "application/json" then
    let rawBody := toString_utf8 responseBuffer in
    match JSON_parse rawBody with
    | Throw _ => (Buffer responseBuffer, res, [])
    | Ok jsonBody =>
        match encodeToToon toon_encode jsonBody None with
        | Throw _ => (Buffer responseBuffer, res, [])
        | Ok toonBody =>
            let cmds :=
              if String.eqb (method req) "GET" && Nat.eqb (statusCode res) 200
                 && isRedisConnected
              then [SET (generateKey req) toonBody CACHE_TTL]
              else [] in
            let res1 := setHeader "Content-Type" "text/toon; charset=utf-8" res in
            let res2 := removeHeader "content-length" res1 in
            let res3 := removeHeader "etag" res2 in
            (Text toonBody, res3, cmds)
        end
    end
  else (Buffer responseBuffer, res, []).

End Proxy.

(** ** The gateway as a transition system

    The Redis server holds the cached strings; the gateway is its only
    writer.  [log] lists the bodies sent to clients, newest first. *)

Inductive Output : Type :=
| Hit (req : Request) (body : string)
| Proxied (req : Request) (body : Body).

Record Gateway : Type := {
  redisConnected : bool;
  store : gmap string string;
  log : list Output
}.

Definition isRedisConnected (g : Gateway) : bool := redisConnected g.

(** [redis.get(key)] against the server's current content; the promise is
    rejected when the client fails. *)
Definition redis_get (rejects : bool) (st : gmap string string) (key : string)
    : Reply (option string) :=
  if rejects then Rejected else Resolved (st !! key).

(** The server's reaction to one command. *)
Definition exec (st : gmap string string) (c : Command) : gmap string string :=
  match c with
  | GET _ => st
  | SET key value _ => <[key := value]> st
  end.

Inductive Event : Type :=
| Redis (ev : RedisEvent)
| Expire (key : string)
| Incoming (rejects : bool) (req : Request) (res : Response)
| Upstream (lost : bool) (responseBuffer : list Byte.byte)
    (proxyRes_headers : gmap string string) (req : Request) (res : Response).

Definition init : Gateway :=
  {| redisConnected := false; store := ∅; log := [] |}.

Section System.

Context {E : Type}.
Variable toString_utf8 : list Byte.byte → string.
Variable JSON_parse : string → Result E Value.
Variable toon_encode : Value → EncodeOptions → Result E string.
Variable CACHE_TTL : nat.

(** One event: a client event of Redis, the expiry of a key, a request
    reaching the cache middleware, or an upstream response reaching the
    interceptor (whose [SET] may be lost on the way to the server). *)
Definition step (g : Gateway) (ev : Event) : Gateway :=
  match ev with
  | Redis e =>
      {| redisConnected := on e (redisConnected g);
         store := store g; log := log g |}
  | Expire key =>
      {| redisConnected := redisConnected g;
         store := delete key (store g); log := log g |}
  | Incoming rejects req res =>
      match fst (cacheMiddleware (isRedisConnected g)
                   (redis_get rejects (store g)) req res) with
      | Send _ body =>
          {| redisConnected := redisConnected g;
             store := store g; log := Hit req body :: log g |}
      | Next _ => g
      end
  | Upstream lost responseBuffer proxyRes_headers req res =>
      let '(body, _, cmds) :=
        onProxyRes toString_utf8 JSON_parse toon_encode CACHE_TTL
          (isRedisConnected g) responseBuffer proxyRes_headers req res in
      {| redisConnected := redisConnected g;
         store := if lost then store g else foldl exec (store g) cmds;
         log := Proxied req body :: log g |}
  end.

Definition run (events : list Event) : Gateway := foldl step init events.

End System.

(** Every cached string was returned for a GET request with that key. *)
Definition stored_was_returned (g : Gateway) : Prop :=
  ∀ key value, store g !! key = Some value →
    ∃ req, key = generateKey req ∧ method req = "GET" ∧
           In (Proxied req (Text value)) (log g).

(** Every HIT in the log repeats an earlier proxied body of the same
    method and URL. *)
Definition hits_repeat (g : Gateway) : Prop :=
  ∀ later earlier req body,
    log g = (later ++ Hit req body :: earlier)%list →
    ∃ req', In (Proxied req' (Text body)) earlier ∧
            method req' = method req ∧ originalUrl req' = originalUrl req.

Definition consistent (g : Gateway) : Prop :=
  stored_was_returned g ∧ hits_repeat g.


(** ** The codec behind [toon.encode] and [toon.decode]

    Modelled from the spec: the package [@toon-format/toon] that
    [src/toon-codec.js] requires is not among the sources, so the codec
    below follows sections 4, 6 and 7 of the specification.  Where the
    specification fixes no text or no result (the list-item marker, the
    empty-object marker, key folding and path expansion, the relaxations
    of non-strict decoding) the outcome is [Open]. *)

Module Toon.

(** The error taxonomy of section 7; [ValueError] is the encoder's. *)
Inductive ToonError : Type :=
| SyntaxError
| IndentationError
| LengthMismatchError
| UnexpectedEndError
| UnknownLiteralError
| FoldingConflictError
| ValueError.

Inductive Outcome (A : Type) : Type :=
| Returns (a : A)
| Raises (e : ToonError)
| Open.
Arguments Returns {A} a.
Arguments Raises {A} e.
Arguments Open {A}.

#[global] Instance Outcome_bind : MBind Outcome := λ A B f x,
  match x with
  | Returns a => f a
  | Raises e => Raises e
  | Open => Open
  end.

#[global] Instance Outcome_ret : MRet Outcome := λ A a, Returns a.

(** *** Characters *)

Definition LF : ascii := "010"%char.
Definition HT : ascii := "009"%char.
Definition CR : ascii := "013"%char.
Definition DQ : ascii := "034"%char.
Definition BS : ascii := "092"%char.

Definition isSpace (c : ascii) : bool :=
  Ascii.eqb c " " || Ascii.eqb c HT || Ascii.eqb c CR || Ascii.eqb c LF.

Definition isDigit (c : ascii) : bool :=
  let n := nat_of_ascii c in (48 <=? n)%nat && (n <=? 57)%nat.

Definition delimiterChar (d : Delimiter) : ascii :=
  match d with
  | Comma => ","%char
  | Tab => HT
  | Pipe => "|"%char
  end.

Fixpoint contains (c : ascii) (s : string) : bool :=
  match s with
  | EmptyString => false
  | String a rest => Ascii.eqb a c || contains c rest
  end.

Fixpoint lastChar (s : string) : option ascii :=
  match s with
  | EmptyString => None
  | String a EmptyString => Some a
  | String _ rest => lastChar rest
  end.

Definition firstChar (s : string) : option ascii :=
  match s with
  | EmptyString => None
  | String a _ => Some a
  end.

Fixpoint allChars (p : ascii → bool) (s : string) : bool :=
  match s with
  | EmptyString => true
  | String a rest => p a && allChars p rest
  end.

(** The longest prefix of characters satisfying [p], and the rest. *)
Fixpoint spanChars (p : ascii → bool) (s : string) : string * string :=
  match s with
  | EmptyString => (EmptyString, EmptyString)
  | String a rest =>
      if p a then let '(pre, post) := spanChars p rest in (String a pre, post)
      else (EmptyString, s)
  end.

Fixpoint repeatChar (c : ascii) (n : nat) : string :=
  match n with
  | O => EmptyString
  | S n' => String c (repeatChar c n')
  end.

(** *** Numbers (section 4.1) *)

(** The value of a string of decimal digits. *)
Fixpoint digitsValue (acc : Z) (s : string) : Z :=
  match s with
  | EmptyString => acc
  | String c rest => digitsValue (10 * acc + Z.of_nat (nat_of_ascii c - 48)) rest
  end.

(** Number syntax: an optional minus sign, an integer part without a
    superfluous leading zero, an optional fraction, an optional
    exponent.  The result is the pair of a mantissa and a decimal
    exponent. *)
Definition parseNumber (s : string) : option (Z * Z) :=
  let '(neg, s1) :=
    match s with
    | String "-" rest => (true, rest)
    | _ => (false, s)
    end in
  let '(int, s2) := spanChars isDigit s1 in
  let intOk :=
    match int with
    | EmptyString => false
    | String "0" (String _ _) => false
    | _ => true
    end in
  let '(frac, s3, fracOk) :=
    match s2 with
    | String "." rest =>
        let '(f, r) := spanChars isDigit rest in
        (f, r, negb (String.eqb f EmptyString))
    | _ => (EmptyString, s2, true)
    end in
  let '(exp, s4, expOk) :=
    match s3 with
    | String c rest =>
        if Ascii.eqb c "e" || Ascii.eqb c "E" then
          let '(eneg, r1) :=
            match rest with
            | String "-" r => (true, r)
            | String "+" r => (false, r)
            | _ => (false, rest)
            end in
          let '(ds, r2) := spanChars isDigit r1 in
          ((if eneg then - digitsValue 0 ds else digitsValue 0 ds)%Z,
           r2, negb (String.eqb ds EmptyString))
        else (0%Z, s3, true)
    | EmptyString => (0%Z, s3, true)
    end in
  if intOk && fracOk && expOk && String.eqb s4 EmptyString then
    let m := digitsValue 0 (int +:+ frac) in
    Some (if neg then - m else m, exp - Z.of_nat (String.length frac))%Z
  else None.

Definition isNumberSyntax (s : string) : bool :=
  match parseNumber s with
  | Some _ => true
  | None => false
  end.

(** Dropping the trailing zeros of a mantissa into the exponent; the
    fuel bounds the number of digits. *)
Fixpoint stripZeros (fuel : nat) (m e : Z) : Z * Z :=
  match fuel with
  | O => (m, e)
  | S fuel' =>
      if (m =? 0)%Z then (0, 0)%Z
      else if (m mod 10 =? 0)%Z then stripZeros fuel' (m / 10)%Z (e + 1)%Z
      else (m, e)
  end.

(** The canonical decimal text of a finite number: sign, digits, and a
    decimal point only when a fraction remains. *)
Definition renderNumber (m e : Z) : string :=
  let '(m1, e1) := stripZeros (Z.to_nat (Z.log2 (Z.abs m)) + 1) m e in
  let sign := if (m1 <? 0)%Z then "-" else EmptyString in
  let ds := pretty (Z.abs m1) in
  if (0 <=? e1)%Z then sign +:+ ds +:+ repeatChar "0" (Z.to_nat e1)
  else
    let f := Z.to_nat (- e1) in
    let n := String.length ds in
    if (f <? n)%nat then
      sign +:+ String.substring 0 (n - f) ds +:+ "." +:+ String.substring (n - f) f ds
    else sign +:+ "0." +:+ repeatChar "0" (f - n) +:+ ds.


(** *** Quoting (section 4.1) *)

Definition isReservedLiteral (s : string) : bool :=
  String.eqb s "null" || String.eqb s "true" || String.eqb s "false".

(** Modelled from the spec: the quoting decision of [toon.encode]
    (section 4.1).  A string is quoted when it contains the active
    delimiter, has leading or trailing whitespace, contains a newline, is
    empty, or reads as a reserved literal or as a number; otherwise it is
    emitted as it is. *)
Definition needsQuote (d : Delimiter) (s : string) : bool :=
  contains (delimiterChar d) s
  || from_option isSpace false (firstChar s)
  || from_option isSpace false (lastChar s)
  || contains LF s
  || String.eqb s EmptyString
  || isReservedLiteral s
  || isNumberSyntax s.

(** Inside quotes the quote and the backslash are escaped. *)
Fixpoint escape (s : string) : string :=
  match s with
  | EmptyString => EmptyString
  | String c rest =>
      if Ascii.eqb c DQ || Ascii.eqb c BS then String BS (String c (escape rest))
      else String c (escape rest)
  end.

Definition quote (s : string) : string :=
  String DQ (escape s +:+ String DQ EmptyString).

Definition encodeString (d : Delimiter) (s : string) : string :=
  if needsQuote d s then quote s else s.

Definition isScalar (v : Value) : bool :=
  match v with
  | VNull | VBool _ | VNumber _ | VString _ => true
  | VArray _ | VObject _ => false
  end.

(** Modelled from the spec: the scalar rendering of [toon.encode]
    (section 4.1).  A non-finite number cannot be encoded, and a
    container has no scalar text. *)
Definition encodePrimitive (d : Delimiter) (v : Value) : Outcome string :=
  match v with
  | VNull => Returns "null"
  | VBool true => Returns "true"
  | VBool false => Returns "false"
  | VNumber (Dec m e) => Returns (renderNumber m e)
  | VNumber NonFinite => Raises ValueError
  | VString s => Returns (encodeString d s)
  | VArray _ | VObject _ => Raises ValueError
  end.

(** The text between the quotes of a quoted token, unescaped; [s] is
    what follows the opening quote.  Anything after the closing quote,
    a missing closing quote and an escape of another character are
    malformed. *)
Fixpoint unescape (s : string) : Outcome string :=
  match s with
  | EmptyString => Raises SyntaxError
  | String c rest =>
      if Ascii.eqb c DQ then
        match rest with
        | EmptyString => Returns EmptyString
        | String _ _ => Raises SyntaxError
        end
      else if Ascii.eqb c BS then
        match rest with
        | String c' rest' =>
            if Ascii.eqb c' DQ || Ascii.eqb c' BS
            then t ← unescape rest'; Returns (String c' t)
            else Raises SyntaxError
        | EmptyString => Raises SyntaxError
        end
      else t ← unescape rest; Returns (String c t)
  end.

(** Modelled from the spec: the token reading of [toon.decode]
    (section 4.1).  Quoted tokens always give a string; unquoted ones are
    a reserved literal, a number (in canonical form), or else a plain
    string.  The specification gives no grammar for bare strings, so the
    empty unquoted token is left open. *)
Definition decodeToken (tok : string) : Outcome Value :=
  match tok with
  | EmptyString => Open
  | String c rest =>
      if Ascii.eqb c DQ then s ← unescape rest; Returns (VString s)
      else if String.eqb tok "null" then Returns VNull
      else if String.eqb tok "true" then Returns (VBool true)
      else if String.eqb tok "false" then Returns (VBool false)
      else
        match parseNumber tok with
        | Some (m, e) =>
            let '(m1, e1) := stripZeros (Z.to_nat (Z.log2 (Z.abs m)) + 1) m e in
            Returns (VNumber (Dec m1 e1))
        | None => Returns (VString tok)
        end
  end.

(** *** Tabular array detector (section 4.2) *)

Definition fieldsOf (v : Value) : option (list (string * Value)) :=
  match v with
  | VObject fields => Some fields
  | _ => None
  end.

(** [rowOf keys v]: the scalar values of the object [v] when its keys,
    in order, are [keys]. *)
Definition rowOf (keys : list string) (v : Value) : option (list Value) :=
  fields ← fieldsOf v;
  if bool_decide (fields.*1 = keys) && forallb isScalar fields.*2
  then Some fields.*2 else None.

(** Modelled from the spec: the tabular array detector of [toon.encode]
    (section 4.2).  An array is tabular when it is not empty, every
    element is an object, all share the ordered key list of the first, and
    every value is a scalar.  The result is that key list with the rows. *)
Definition tabular (items : list Value) : option (list string * list (list Value)) :=
  match items with
  | [] => None
  | first :: _ =>
      fields ← fieldsOf first;
      rows ← mapM (rowOf fields.*1) items;
      Some (fields.*1, rows)
  end.

(** *** Encoder (section 4.3) *)

(** A line of output: its depth and its text without indentation. *)
Definition Line : Type := nat * string.

Definition joinWith (d : Delimiter) (cells : list string) : string :=
  String.concat (String (delimiterChar d) EmptyString) cells.

(** Modelled from the spec: the array forms of [toon.encode] (section
    4.3).  An array under [key] ([key] is empty at the root) is [key[0]:]
    when empty; when tabular it is the header [key[N]{f1,f2,...}:] and the
    N rows one level deeper.  The list form needs the list-item marker,
    which the specification does not give. *)
Definition encodeArray (d : Delimiter) (depth : nat) (key : string)
    (items : list Value) : Outcome (list Line) :=
  match items with
  | [] => Returns [(depth, key +:+ "[0]:")]
  | _ :: _ =>
      match tabular items with
      | Some (fields, rows) =>
          texts ← mapM (λ row, cells ← mapM (encodePrimitive d) row;
                               Returns (joinWith d cells)) rows;
          Returns ((depth, key +:+ "[" +:+ pretty (length items) +:+ "]{"
                           +:+ joinWith d fields +:+ "}:")
                   :: map (λ t, (S depth, t)) texts)
      | None => Open
      end
  end.

(** Modelled from the spec: the object form of [toon.encode] (section
    4.3).  The lines of the fields of an object are [key: value] for a
    scalar, [key:] and the child block one level deeper for an object, the
    array forms for an array.  The marker of an empty object is not given
    by the specification. *)
Fixpoint encodeObject (d : Delimiter) (depth : nat) (v : Value) {struct v}
    : Outcome (list Line) :=
  match v with
  | VObject fields =>
      (fix entries (fs : list (string * Value)) : Outcome (list Line) :=
         match fs with
         | [] => Returns []
         | kv :: rest =>
             ls ← match kv.2 with
                  | VArray items => encodeArray d depth kv.1 items
                  | VObject [] => Open
                  | VObject (_ :: _) =>
                      child ← encodeObject d (S depth) kv.2;
                      Returns ((depth, kv.1 +:+ ":") :: child)
                  | _ =>
                      t ← encodePrimitive d kv.2;
                      Returns [(depth, kv.1 +:+ ": " +:+ t)]
                  end;
             more ← entries rest;
             Returns (ls ++ more)%list
         end) fields
  | _ => Raises ValueError
  end.

Definition encodeLines (d : Delimiter) (v : Value) : Outcome (list Line) :=
  match v with
  | VArray items => encodeArray d 0 EmptyString items
  | VObject [] => Open
  | VObject (_ :: _) => encodeObject d 0 v
  | _ => t ← encodePrimitive d v; Returns [(0, t)]
  end.

(** Indentation is [indent] spaces per level; lines are joined by a
    line feed. *)
Definition renderLine (indent : nat) (l : Line) : string :=
  repeatChar " " (l.1 * indent) +:+ l.2.

Definition renderLines (indent : nat) (ls : list Line) : string :=
  String.concat (String LF EmptyString) (map (renderLine indent) ls).

(** Modelled from the spec: [toon.encode(value, options)] of the package
    [@toon-format/toon], with the defaults of section 6: delimiter comma,
    indent 2, key folding off.  Key folding and an indent of zero are left
    open. *)
Definition encode (value : Value) (options : EncodeOptions) : Outcome string :=
  match default FoldOff (keyFolding options), default 2 (indent options) with
  | FoldSafe, _ => Open
  | FoldOff, O => Open
  | FoldOff, S n =>
      ls ← encodeLines (default Comma (delimiter options)) value;
      Returns (renderLines (S n) ls)
  end.

(** *** Decoder (section 4.4) *)

(** The physical lines of a text. *)
Fixpoint splitLines (s : string) : list string :=
  match s with
  | EmptyString => [EmptyString]
  | String c rest =>
      if Ascii.eqb c LF then EmptyString :: splitLines rest
      else match splitLines rest with
           | l :: ls => String c l :: ls
           | [] => [String c EmptyString]
           end
  end.

(** Modelled from the spec: the tokenization of [toon.decode] (section
    4.4).  Blank lines are skipped; the depth of a line is its number of
    leading spaces divided by [indentSize]; strict mode refuses a count
    that is no multiple of [indentSize] and a depth more than one greater
    than that of the preceding line.  [prev] is the depth of the nearest
    preceding line. *)
Fixpoint tokenizeFrom (strict : bool) (indentSize : nat) (prev : option nat)
    (physical : list string) : Outcome (list Line) :=
  match physical with
  | [] => Returns []
  | l :: rest =>
      if allChars isSpace l then tokenizeFrom strict indentSize prev rest
      else
        let '(spaces, text) := spanChars (Ascii.eqb " ") l in
        let n := String.length spaces in
        if strict && negb (n mod indentSize =? 0)%nat then Raises IndentationError
        else
          let depth := (n / indentSize)%nat in
          if strict && from_option (λ p, S p <? depth)%nat false prev
          then Raises IndentationError
          else
            ls ← tokenizeFrom strict indentSize (Some depth) rest;
            Returns ((depth, text) :: ls)
  end.

Definition tokenize (strict : bool) (indentSize : nat) (text : string)
    : Outcome (list Line) :=
  tokenizeFrom strict indentSize None (splitLines text).

Definition consHead (c : ascii) (cells : list string) : list string :=
  match cells with
  | cell :: more => String c cell :: more
  | [] => [String c EmptyString]
  end.

(** The delimiter-separated tokens of a row; a delimiter inside quotes
    does not separate.  [quoted] tells whether [s] starts inside a
    quoted token. *)
Fixpoint splitRow (dc : ascii) (quoted : bool) (s : string) : list string :=
  match s with
  | EmptyString => [EmptyString]
  | String c rest =>
      if quoted then
        if Ascii.eqb c BS then
          match rest with
          | String c' rest' => consHead c (consHead c' (splitRow dc true rest'))
          | EmptyString => [String c EmptyString]
          end
        else consHead c (splitRow dc (negb (Ascii.eqb c DQ)) rest)
      else if Ascii.eqb c dc then EmptyString :: splitRow dc false rest
      else consHead c (splitRow dc (Ascii.eqb c DQ) rest)
  end.

Definition consLeft (c : ascii) (x : option (string * string))
    : option (string * string) :=
  match x with
  | Some (l, r) => Some (String c l, r)
  | None => None
  end.

(** The text before and after the first colon outside quotes. *)
Fixpoint splitColon (quoted : bool) (s : string) : option (string * string) :=
  match s with
  | EmptyString => None
  | String c rest =>
      if quoted then
        if Ascii.eqb c BS then
          match rest with
          | String c' rest' => consLeft c (consLeft c' (splitColon true rest'))
          | EmptyString => None
          end
        else consLeft c (splitColon (negb (Ascii.eqb c DQ)) rest)
      else if Ascii.eqb c ":" then Some (EmptyString, rest)
      else consLeft c (splitColon (Ascii.eqb c DQ) rest)
  end.

(** A key or field name: unescaped when it was written in quotes. *)
Definition decodeKey (k : string) : Outcome string :=
  match k with
  | String c rest => if Ascii.eqb c DQ then unescape rest else Returns k
  | EmptyString => Returns k
  end.

Fixpoint dropLast (s : string) : string :=
  match s with
  | EmptyString => EmptyString
  | String _ EmptyString => EmptyString
  | String c rest => String c (dropLast rest)
  end.

(** What one line says. *)
Inductive Entry : Type :=
| EScalar (tok : string)
| EField (key tok : string)
| EBlock (key : string)
| ETabular (key : string) (n : nat) (fields : list string)
| EList (key : string) (n : nat).

(** The part of a header before its colon: [key[N]{f1,f2,...}],
    [key[N]] or [key]. *)
Definition parseHeader (dc : ascii) (h : string) : Outcome Entry :=
  let '(name, r0) := spanChars (λ c, negb (Ascii.eqb c "[")) h in
  match r0 with
  | EmptyString => key ← decodeKey h; Returns (EBlock key)
  | String _ r1 =>
      let '(ds, r2) := spanChars isDigit r1 in
      let n := Z.to_nat (digitsValue 0 ds) in
      key ← decodeKey name;
      match ds, r2 with
      | String _ _, String "]" EmptyString => Returns (EList key n)
      | String _ _, String "]" (String "{" r3) =>
          if from_option (Ascii.eqb "}") false (lastChar r3) then
            fields ← mapM decodeKey (splitRow dc false (dropLast r3));
            Returns (ETabular key n fields)
          else Raises SyntaxError
      | _, _ => Raises SyntaxError
      end
  end.

Definition classify (dc : ascii) (text : string) : Outcome Entry :=
  match splitColon false text with
  | None => Returns (EScalar text)
  | Some (h, EmptyString) => parseHeader dc h
  | Some (h, String " " tok) => key ← decodeKey h; Returns (EField key tok)
  | Some (_, String _ _) => Raises SyntaxError
  end.

(** Modelled from the spec: the state [ExpectTabularRows(remaining,
    fields)] of [toon.decode] (section 4.4).  Every line at depth [d] is a
    row and must split into as many tokens as there are fields.  In strict
    mode exactly [remaining] rows must appear; this check comes before the
    one for an input that ends with rows still pending, which is all that
    is left of it in non-strict mode. *)
Fixpoint parseRows (strict : bool) (dc : ascii) (fields : list string)
    (d remaining : nat) (lines : list Line) : Outcome (list Value * list Line) :=
  let atEnd :=
    match remaining, lines with
    | O, _ => Returns ([], lines)
    | S _, [] => if strict then Raises LengthMismatchError else Raises UnexpectedEndError
    | S _, _ :: _ => if strict then Raises LengthMismatchError else Open
    end in
  match lines with
  | [] => atEnd
  | l :: rest =>
      if (l.1 =? d)%nat then
        match remaining with
        | O => if strict then Raises LengthMismatchError else Open
        | S r =>
            let cells := splitRow dc false l.2 in
            if negb (length cells =? length fields)%nat then Raises LengthMismatchError
            else
              values ← mapM decodeToken cells;
              '(rows, rest') ← parseRows strict dc fields d r rest;
              Returns (VObject (zip fields values) :: rows, rest')
        end
      else atEnd
  end.

(** Modelled from the spec: the states [ExpectHeader] and
    [ExpectChildBlock] of [toon.decode] (section 4.4).  The fields of the
    object block at depth [d] are the lines at that depth with what is
    nested under each, up to the first shallower line.  A deeper line
    has no open parent.  [fuel] exceeds the number of lines. *)
Fixpoint parseFields (fuel : nat) (strict : bool) (dc : ascii) (d : nat)
    (lines : list Line) : Outcome (list (string * Value) * list Line) :=
  match fuel, lines with
  | O, _ => Open
  | S _, [] => Returns ([], [])
  | S fuel', l :: rest =>
      if (l.1 <? d)%nat then Returns ([], lines)
      else if (d <? l.1)%nat then Open
      else
        e ← classify dc l.2;
        '(kv, rest1) ←
          match e with
          | EScalar _ => Raises SyntaxError
          | EField key tok => v ← decodeToken tok; Returns ((key, v), rest)
          | EBlock key =>
              '(child, rest1) ← parseFields fuel' strict dc (S d) rest;
              match child with
              | [] => Open
              | _ :: _ => Returns ((key, VObject child), rest1)
              end
          | ETabular key n fields =>
              '(rows, rest1) ← parseRows strict dc fields (S d) n rest;
              Returns ((key, VArray rows), rest1)
          | EList key O => Returns ((key, VArray []), rest)
          | EList key (S _) => Open
          end;
        '(more, rest2) ← parseFields fuel' strict dc d rest1;
        Returns (kv :: more, rest2)
  end.

(** Modelled from the spec: the root of [toon.decode] (section 4.4).  A
    lone token is a scalar, a header without key opens a root array,
    anything else is the block of a root object. *)
Definition decodeLines (strict : bool) (dc : ascii) (lines : list Line)
    : Outcome Value :=
  match lines with
  | [] => Open
  | l :: rest =>
      if negb (l.1 =? 0)%nat then Open
      else
        e ← classify dc l.2;
        match e, firstChar l.2 with
        | EScalar tok, _ =>
            match rest with
            | [] => decodeToken tok
            | _ :: _ => Raises SyntaxError
            end
        | ETabular _ n fields, Some "["%char =>
            '(rows, rest1) ← parseRows strict dc fields 1 n rest;
            match rest1 with
            | [] => Returns (VArray rows)
            | _ :: _ => Open
            end
        | EList _ O, Some "["%char =>
            match rest with
            | [] => Returns (VArray [])
            | _ :: _ => Open
            end
        | EList _ (S _), Some "["%char => Open
        | _, _ =>
            '(fields, rest1) ← parseFields (S (length lines)) strict dc 0 lines;
            match rest1 with
            | [] => Returns (VObject fields)
            | _ :: _ => Open
            end
        end
  end.

(** Modelled from the spec: [toon.decode(text, options)] of the package
    [@toon-format/toon], with the defaults of section 6: strict, no path
    expansion, indent size 2.  The decode options name no delimiter; rows
    are split at the default one.  Path expansion and an indent size of
    zero are left open. *)
Definition decode (text : string) (options : DecodeOptions) : Outcome Value :=
  match default FoldOff (expandPaths options), default 2 (indentSize options) with
  | FoldSafe, _ => Open
  | FoldOff, O => Open
  | FoldOff, S n =>
      lines ← tokenize (default true (strict options)) (S n) text;
      decodeLines (default true (strict options)) (delimiterChar Comma) lines
  end.

End Toon.


Import Toon.

(** ** Sample data *)

Definition strictOptions : DecodeOptions :=
  {| strict := Some true; expandPaths := None; indentSize := None |}.

(** A data row of a tabular block, as the text that follows its
    indentation: it stays on one line, starts with a character that is
    not white space, and each of its tokens can be read. *)
Definition dataRow (r : string) : Prop :=
  contains LF r = false ∧
  (∃ c r', r = String c r' ∧ isSpace c = false) ∧
  (∃ values, mapM decodeToken (splitRow (delimiterChar Comma) false r) = Returns values).

(** The text of a block: a header line and rows indented by two spaces. *)
Definition block (header : string) (rows : list string) : string :=
  String.concat (String LF EmptyString) (header :: map (λ r, "  " +:+ r) rows).


(** The array of the objects [{id: 1, name: Alice}] and
    [{id: 2, name: Bob}]. *)
Definition users : Value :=
  VArray [VObject [("id", VNumber (Dec 1 0)); ("name", VString "Alice")];
          VObject [("id", VNumber (Dec 2 0)); ("name", VString "Bob")]].

(** A small stand-in for the collaborators of the interceptor: a parser
    that knows the JSON text [null] and a codec that encodes [null]. *)
Definition sample_parse (s : string) : Result string Value :=
  if String.eqb s "null" then Ok VNull else Throw "SyntaxError".

Definition sample_encode (v : Value) (_ : EncodeOptions) : Result string string :=
  match v with
  | VNull => Ok "null"
  | _ => Throw "TypeError"
  end.

Definition sample_request : Request :=
  {| method := "GET"; path := "/posts/1"; originalUrl := "/posts/1" |}.

Definition sample_response : Response :=
  {| statusCode := 200; headers := ∅ |}.

(** The bytes of the text [null]. *)
Definition null_bytes : list Byte.byte :=
  [Byte.x6e; Byte.x75; Byte.x6c; Byte.x6c].

Definition json_headers : gmap string string :=
  {[ "content-type" := "application/json; charset=utf-8" ]}.

(** An object with a tabular array, a nested object and scalars that
    need quotes. *)
Definition report : Value :=
  VObject [("users", users);
           ("ratio", VNumber (Dec 15 (-1)));
           ("meta", VObject [("tag", VString "true"); ("note", VString "a, b");
                             ("none", VNull)]);
           ("empty", VArray [])].

(** ** src/cache.js: the options of the Redis client *)

(** [retryStrategy(times)]: the delay before the next connection attempt,
    in milliseconds. *)
Definition retryStrategy (times : Z) : Z := Z.min (times * 50) 2000.

(** [reconnectOnError(err)], on the message of the error. *)
Definition reconnectOnError (message : string) : bool :=
  if includes message "READONLY" then true else false.

(** ** src/app.js: the health check endpoint *)

Module HealthCheck.

(** The object sent as JSON; [U] is the type of [process.uptime()]. *)
Record Health (U : Type) : Type := {
  status : string;
  uptime : U;
  redis : string;
  timestamp : string
}.
Arguments status {U} h.
Arguments uptime {U} h.
Arguments redis {U} h.
Arguments timestamp {U} h.

(** The handler of [GET /health]: the status code and the body of the
    response, from the connected flag, the uptime and the current time
    as ISO text. *)
Definition handler {U : Type} (isRedisConnected : bool) (up : U) (now : string)
    : nat * Health U :=
  let health :=
    {| status := "healthy";
       uptime := up;
       redis := if isRedisConnected then "connected" else "disconnected";
       timestamp := now |} in
  let statusCode := if String.eqb (redis health) "connected" then 200 else 503 in
  (statusCode, health).

End HealthCheck.

(** The Redis client events among the events of a run, oldest first. *)
Definition redisEvents (events : list Event) : list RedisEvent :=
  omap (λ ev, match ev with Redis e => Some e | _ => None end) events.

(** ** The conformance test runner bundled with the sources *)

Module TestRunner.

Definition newline : ascii := "010"%char.
Definition carriage : ascii := "013"%char.

(** The code units below 256 that [String.prototype.trim] strips: tab,
    line feed, vertical tab, form feed, carriage return, space and the
    no-break space. *)
Definition isWhite (c : ascii) : bool :=
  let n := nat_of_ascii c in
  ((9 <=? n)%nat && (n <=? 13)%nat) || (n =? 32)%nat || (n =? 160)%nat.

(** [str.replace(/\r\n/g, '\n')]. *)
Fixpoint replaceCRLF (s : string) : string :=
  match s with
  | EmptyString => EmptyString
  | String c rest =>
      match rest with
      | String c' rest' =>
          if Ascii.eqb c carriage && Ascii.eqb c' newline
          then String newline (replaceCRLF rest')
          else String c (replaceCRLF rest)
      | EmptyString => String c EmptyString
      end
  end.

Fixpoint trimStart (s : string) : string :=
  match s with
  | EmptyString => EmptyString
  | String c rest => if isWhite c then trimStart rest else s
  end.

Fixpoint trimEnd (s : string) : string :=
  match s with
  | EmptyString => EmptyString
  | String c rest =>
      match trimEnd rest with
      | EmptyString => if isWhite c then EmptyString else String c EmptyString
      | String _ _ as kept => String c kept
      end
  end.

Definition trim (s : string) : string := trimEnd (trimStart s).

(** [normalizeWhitespace(str)] for a string. *)
Definition normalizeWhitespace (str : string) : string :=
  trim (replaceCRLF str).

(** [String(str).replace(/\n/g, '\\n')]: a backslash and the letter n for
    every line feed. *)
Fixpoint escapeNewlines (s : string) : string :=
  match s with
  | EmptyString => EmptyString
  | String c rest =>
      if Ascii.eqb c newline then String "\" (String "n" (escapeNewlines rest))
      else String c (escapeNewlines rest)
  end.

(** [truncate(str, maxLen)]; [maxLen] is 100 when omitted. *)
Definition truncate (str : string) (maxLen : option nat) : string :=
  let maxLen := default 100%nat maxLen in
  let s := escapeNewlines str in
  if (maxLen <? String.length s)%nat
  then String.substring 0 maxLen s +:+ "..."
  else s.

Record Stats : Type := {
  total : nat;
  passed : nat;
  failed : nat;
  skipped : nat
}.

(** A test of an encode fixture, which holds a string or nothing as
    expected text: [expected] is [None] when it holds nothing, and so is
    [options]. *)
Record EncodeTest : Type := {
  e_name : string;
  e_input : Value;
  e_options : option EncodeOptions;
  e_expected : option string;
  e_shouldError : bool;
  e_note : option string
}.

(** A test of a decode fixture; [expected] is [None] when absent. *)
Record DecodeTest : Type := {
  d_name : string;
  d_input : string;
  d_options : option DecodeOptions;
  d_expected : option Value;
  d_shouldError : bool;
  d_note : option string
}.

(** The entries pushed on [failures]: a result that differs from the
    expected one, or the message of an error that was not expected. *)
Inductive Failure : Type :=
| EncodeMismatch (file test : string) (input : Value) (expected : option string)
    (actual : string) (note : option string)
| EncodeError (file test : string) (input : Value) (error : string)
| DecodeMismatch (file test : string) (input : string) (expected : option Value)
    (actual : Value) (note : option string)
| DecodeError (file test : string) (input : string) (error : string).

(** The runner object: [this.stats] and [this.failures]. *)
Record Runner : Type := {
  stats : Stats;
  failures : list Failure
}.


(** The text with a carriage return put before every line feed. *)
Fixpoint toCRLF (s : string) : string :=
  match s with
  | EmptyString => EmptyString
  | String c rest =>
      if Ascii.eqb c newline then String carriage (String newline (toCRLF rest))
      else String c (toCRLF rest)
  end.

Fixpoint allWhite (s : string) : bool :=
  match s with
  | EmptyString => true
  | String c rest => isWhite c && allWhite rest
  end.

(** [new TestRunner()]. *)
Definition constructor : Runner :=
  {| stats := {| total := 0; passed := 0; failed := 0; skipped := 0 |};
     failures := [] |}.

Definition countTotal (r : Runner) : Runner :=
  {| stats := {| total := S (total (stats r)); passed := passed (stats r);
                 failed := failed (stats r); skipped := skipped (stats r) |};
     failures := failures r |}.

Definition pass (r : Runner) : Runner :=
  {| stats := {| total := total (stats r); passed := S (passed (stats r));
                 failed := failed (stats r); skipped := skipped (stats r) |};
     failures := failures r |}.

(** [this.stats.failed++; this.failures.push(f)]. *)
Definition fail (f : Failure) (r : Runner) : Runner :=
  {| stats := {| total := total (stats r); passed := passed (stats r);
                 failed := S (failed (stats r)); skipped := skipped (stats r) |};
     failures := failures r ++ [f] |}.


Section Runs.

(** The codec under test, the errors it throws carrying their message;
    [JSON.stringify] on values; and the message of the [TypeError] that
    calling [replace] on [undefined] raises. *)
Variable toon_encode : Value → EncodeOptions → Result string string.
Variable toon_decode : string → DecodeOptions → Result string Value.
Variable JSON_stringify : Value → string.
Variable undefinedMessage : string.

(** The body of the [try] block of an encode test: the encoder's result
    and the expected text, both normalized; [undefined] as expected text
    throws. *)
Definition encodeAttempt (test : EncodeTest) : Result string (string * string) :=
  match encodeToToon toon_encode (e_input test)
          (Some (default emptyEncodeOptions (e_options test))) with
  | Throw e => Throw e
  | Ok result =>
      match e_expected test with
      | None => Throw undefinedMessage
      | Some expected => Ok (result, expected)
      end
  end.

(** One iteration of the inner loop of [runEncodeTests]. *)
Definition runEncodeTest (file : string) (r : Runner) (test : EncodeTest) : Runner :=
  let r := countTotal r in
  match encodeAttempt test with
  | Ok (result, expected) =>
      if String.eqb (normalizeWhitespace result) (normalizeWhitespace expected)
      then pass r
      else fail (EncodeMismatch file (e_name test) (e_input test)
                   (e_expected test) result (e_note test)) r
  | Throw error =>
      if e_shouldError test then pass r
      else fail (EncodeError file (e_name test) (e_input test) error) r
  end.

(** [runEncodeTests()] over the fixture files, each with its tests. *)
Definition runEncodeTests (files : list (string * list EncodeTest)) (r : Runner)
    : Runner :=
  foldl (λ r file, foldl (runEncodeTest file.1) r file.2) r files.

(** One iteration of the inner loop of [runDecodeTests]: the two
    [JSON.stringify] results are compared, that of [undefined] being
    [undefined]. *)
Definition runDecodeTest (file : string) (r : Runner) (test : DecodeTest) : Runner :=
  let r := countTotal r in
  match decodeFromToon toon_decode (d_input test)
          (Some (default emptyDecodeOptions (d_options test))) with
  | Ok result =>
      if bool_decide (Some (JSON_stringify result)
                      = JSON_stringify <$> d_expected test)
      then pass r
      else fail (DecodeMismatch file (d_name test) (d_input test)
                   (d_expected test) result (d_note test)) r
  | Throw error =>
      if d_shouldError test then pass r
      else fail (DecodeError file (d_name test) (d_input test) error) r
  end.

(** [runDecodeTests()]: skipped when the decode directory is missing. *)
Definition runDecodeTests (files : option (list (string * list DecodeTest)))
    (r : Runner) : Runner :=
  match files with
  | None => r
  | Some files => foldl (λ r file, foldl (runDecodeTest file.1) r file.2) r files
  end.

(** The value [printSummary()] returns. *)
Definition printSummary (r : Runner) : nat :=
  if (failed (stats r) =? 0)%nat then 0 else 1.

(** What [run()] finds on disk: nothing at the fixture directory, or the
    encode fixtures ([None] when reading them throws) and the decode
    fixtures ([None] when their directory is missing). *)
Definition Fixtures : Type :=
  option (list (string * list EncodeTest)) * option (list (string * list DecodeTest)).

(** The runner after [run()] and the exit code it resolves to. *)
Definition run (specDir : option Fixtures) (r : Runner) : Runner * nat :=
  match specDir with
  | None => (r, 1)
  | Some (None, _) => (r, 1)
  | Some (Some encodeFiles, decodeFiles) =>
      let r := runDecodeTests decodeFiles (runEncodeTests encodeFiles r) in
      (r, printSummary r)
  end.

End Runs.

End TestRunner.

(** The response object a handler result carries. *)
Definition handledResponse (h : Handled) : Response :=
  match h with
  | Send res _ => res
  | Next res => res
  end.

(** * Properties of the gateway *)

Lemma truthy_of_includes (ct : string) :
  includes ct "application/json" = true → truthy (Some ct) = true.
Proof. destruct ct; [discriminate | reflexivity]. Qed.

Section ProxyProperties.

Context {E : Type}.
Variable toString_utf8 : list Byte.byte → string.
Variable JSON_parse : string → Result E Value.
Variable toon_encode : Value → EncodeOptions → Result E string.
Variable CACHE_TTL : nat.

Local Abbreviation onProxyRes' :=
  (onProxyRes toString_utf8 JSON_parse toon_encode CACHE_TTL).

(** The interceptor's three ways out, by the tests it makes. *)
Lemma onProxyRes_not_json isConn buf hs req res :
  (∀ ct, hs !! "content-type" = Some ct →
         includes ct "application/json" = false) →
  onProxyRes' isConn buf hs req res = (Buffer buf, res, []).
Proof.
  intros Hct. unfold onProxyRes.
  destruct (hs !! "content-type") as [ct|] eqn:Hhs; [|reflexivity].
  simpl. rewrite (Hct ct eq_refl), andb_false_r. reflexivity.
Qed.

Lemma onProxyRes_json isConn buf hs req res ct :
  hs !! "content-type" = Some ct →
  includes ct "application/json" = true →
  onProxyRes' isConn buf hs req res =
    match JSON_parse (toString_utf8 buf) with
    | Throw _ => (Buffer buf, res, [])
    | Ok jsonBody =>
        match encodeToToon toon_encode jsonBody None with
        | Throw _ => (Buffer buf, res, [])
        | Ok toonBody =>
            (Text toonBody,
             removeHeader "etag"
               (removeHeader "content-length"
                  (setHeader "Content-Type" "text/toon; charset=utf-8" res)),
             if String.eqb (method req) "GET" && Nat.eqb (statusCode res) 200
                && isConn
             then [SET (generateKey req) toonBody CACHE_TTL] else [])
        end
    end.
Proof.
  intros Hhs Hinc. unfold onProxyRes. rewrite Hhs. simpl default.
  rewrite (truthy_of_includes _ Hinc), Hinc. reflexivity.
Qed.

(** C6: for a response whose content type contains [application/json]
    and whose body both [JSON.parse] and [encodeToToon] accept, the
    interceptor returns exactly [encodeToToon(JSON.parse(body))], with
    the options argument omitted, and leaves the [Content-Type] header
    of the response at [text/toon; charset=utf-8]. *)
Theorem interceptor_forwards_encoding isConn buf hs req res ct jsonBody toonBody :
  hs !! "content-type" = Some ct →
  includes ct "application/json" = true →
  JSON_parse (toString_utf8 buf) = Ok jsonBody →
  encodeToToon toon_encode jsonBody None = Ok toonBody →
  ∃ res' cmds,
    onProxyRes' isConn buf hs req res = (Text toonBody, res', cmds) ∧
    toon_encode jsonBody emptyEncodeOptions = Ok toonBody ∧
    getHeader "Content-Type" res' = Some "text/toon; charset=utf-8".
Proof.
  intros Hhs Hinc Hparse Henc.
  rewrite (onProxyRes_json _ _ _ _ _ _ Hhs Hinc), Hparse, Henc.
  eexists _, _. split; [reflexivity|]. split; [exact Henc|].
  unfold getHeader, removeHeader, setHeader. simpl headers.
  rewrite lookup_delete_ne by (vm_compute; discriminate).
  rewrite lookup_delete_ne by (vm_compute; discriminate).
  apply lookup_insert_eq.
Qed.

(** C8: when the content type does not contain [application/json], or
    [JSON.parse] throws, or [encodeToToon] throws, the interceptor
    returns the buffer it was given, touches no header and sends no
    command to Redis. *)
Theorem interceptor_falls_back isConn buf hs req res :
  (∀ ct, hs !! "content-type" = Some ct →
         includes ct "application/json" = false)
  ∨ (∃ e, JSON_parse (toString_utf8 buf) = Throw e)
  ∨ (∃ jsonBody e, JSON_parse (toString_utf8 buf) = Ok jsonBody ∧
                   encodeToToon toon_encode jsonBody None = Throw e) →
  onProxyRes' isConn buf hs req res = (Buffer buf, res, []).
Proof.
  intros [Hct | Hthrow].
  - by apply onProxyRes_not_json.
  - destruct (hs !! "content-type") as [ct|] eqn:Hhs.
    + destruct (includes ct "application/json") eqn:Hinc.
      * rewrite (onProxyRes_json _ _ _ _ _ _ Hhs Hinc).
        destruct Hthrow as [[e He] | (v & e & Hv & He)].
        -- by rewrite He.
        -- by rewrite Hv, He.
      * apply onProxyRes_not_json. intros ct' Hct'. congruence.
    + apply onProxyRes_not_json. intros ct' Hct'. congruence.
Qed.

(** Closes a branch of the interceptor on which no command is issued. *)
Ltac no_command := intros [= <- <- <-] [].

(** What the interceptor may send to Redis. *)
Lemma onProxyRes_commands isConn buf hs req res body res' cmds cmd :
  onProxyRes' isConn buf hs req res = (body, res', cmds) →
  In cmd cmds →
  ∃ jsonBody toonBody,
    JSON_parse (toString_utf8 buf) = Ok jsonBody ∧
    encodeToToon toon_encode jsonBody None = Ok toonBody ∧
    cmd = SET (generateKey req) toonBody CACHE_TTL ∧ body = Text toonBody ∧
    method req = "GET" ∧ statusCode res = 200 ∧ isConn = true.
Proof.
  unfold onProxyRes.
  destruct (truthy _ && includes _ _); [|no_command].
  destruct (JSON_parse _) as [jsonBody|] eqn:Hparse; [|no_command].
  destruct (encodeToToon _ _ _) as [toonBody|] eqn:Henc; [|no_command].
  destruct (String.eqb (method req) "GET") eqn:Hm; [|no_command].
  destruct (Nat.eqb (statusCode res) 200) eqn:Hs; [|no_command].
  destruct isConn; [|no_command].
  intros [= <- <- <-] [<- | []]. exists jsonBody, toonBody.
  apply String.eqb_eq in Hm. apply Nat.eqb_eq in Hs. auto 10.
Qed.

End ProxyProperties.

Lemma interceptor_forwards_encoding_witness :
  ∃ res' cmds,
    onProxyRes String.string_of_list_byte sample_parse sample_encode 300
      true null_bytes json_headers sample_request sample_response
    = (Text "null", res', cmds) ∧
    sample_encode VNull emptyEncodeOptions = Ok "null" ∧
    getHeader "Content-Type" res' = Some "text/toon; charset=utf-8".
Proof.
  apply (interceptor_forwards_encoding String.string_of_list_byte
           sample_parse sample_encode 300
           true null_bytes json_headers sample_request sample_response
           "application/json; charset=utf-8" VNull "null");
    reflexivity.
Defined.

Lemma interceptor_falls_back_witness :
  onProxyRes String.string_of_list_byte sample_parse sample_encode 300
    true [Byte.x7b] json_headers sample_request sample_response
  = (Buffer [Byte.x7b], sample_response, []).
Proof.
  apply (interceptor_falls_back String.string_of_list_byte sample_parse
           sample_encode 300 true [Byte.x7b] json_headers
           sample_request sample_response).
  right. left. exists "SyntaxError". reflexivity.
Defined.

(** ** The cache middleware *)

(** The middleware serves from the cache only on the one path that has
    seen a connected flag, a GET request and a path other than
    [/health]. *)
Lemma cacheMiddleware_send isConn get req res res' body cmds :
  cacheMiddleware isConn get req res = (Send res' body, cmds) →
  method req = "GET" ∧ path req ≠ "/health" ∧ isConn = true ∧
  body ≠ "" ∧ get (generateKey req) = Resolved (Some body).
Proof.
  unfold cacheMiddleware.
  destruct (String.eqb (method req) "GET") eqn:Hm; simpl; [|discriminate].
  destruct (String.eqb (path req) "/health") eqn:Hp; [discriminate|].
  destruct isConn; simpl; [|discriminate].
  destruct (get (generateKey req)) as [[data|]|]; simpl; try discriminate.
  destruct (String.eqb data "") eqn:Hd; simpl; [discriminate|].
  intros [= _ <- _].
  apply String.eqb_eq in Hm. apply String.eqb_neq in Hp, Hd. auto.
Qed.

(** C10, as the code has it: a request that is not a GET, or whose path
    is [/health], or that arrives while the connected flag is off, is
    passed on with [next()], nothing is served and no command is sent to
    Redis.  A request that is not a GET or whose path is [/health] is
    passed on with the response untouched; when it is the connected flag
    that stops a GET request for another path, the response carries
    [X-Cache: UNAVAILABLE]. *)
Theorem cacheMiddleware_bypass isConn get req res :
  method req ≠ "GET" ∨ path req = "/health" ∨ isConn = false →
  ∃ res',
    cacheMiddleware isConn get req res = (Next res', []) ∧
    (method req ≠ "GET" ∨ path req = "/health" → res' = res) ∧
    (isConn = false → method req = "GET" → path req ≠ "/health" →
     getHeader "X-Cache" res' = Some "UNAVAILABLE").
Proof.
  intros Hcase. unfold cacheMiddleware.
  destruct (String.eqb (method req) "GET") eqn:Hm; simpl.
  - apply String.eqb_eq in Hm.
    destruct (String.eqb (path req) "/health") eqn:Hp.
    + apply String.eqb_eq in Hp. eexists. split; [reflexivity|].
      split; [reflexivity | congruence].
    + apply String.eqb_neq in Hp.
      destruct Hcase as [? | [? | ->]]; [congruence | congruence |].
      simpl. eexists. split; [reflexivity|].
      split; [intros [? | ?]; congruence|]. intros _ _ _.
      unfold getHeader, setHeader. simpl headers. apply lookup_insert_eq.
  - apply String.eqb_neq in Hm.
    eexists. split; [reflexivity|]. split; [reflexivity | congruence].
Qed.

Lemma cacheMiddleware_bypass_witness :
  ∃ res',
    cacheMiddleware false (redis_get false ∅) sample_request sample_response
    = (Next res', []) ∧
    (method sample_request ≠ "GET" ∨ path sample_request = "/health" →
     res' = sample_response) ∧
    (false = false → method sample_request = "GET" →
     path sample_request ≠ "/health" →
     getHeader "X-Cache" res' = Some "UNAVAILABLE").
Proof.
  apply (cacheMiddleware_bypass false (redis_get false ∅)
           sample_request sample_response).
  right. right. reflexivity.
Defined.

(** A POST request that arrives while Redis is disconnected is passed on
    without an [X-Cache] header: the method test comes first. *)
Lemma cacheMiddleware_post_disconnected :
  ¬ ∃ res',
      cacheMiddleware false (redis_get false ∅)
        {| method := "POST"; path := "/posts"; originalUrl := "/posts" |}
        sample_response
      = (Next res', []) ∧
      getHeader "X-Cache" res' = Some "UNAVAILABLE".
Proof. intros (res' & [= <-] & Hheader). discriminate Hheader. Qed.

(** ** The cache never holds anything but returned encodings *)

Lemma generateKey_GET_inj (req req' : Request) :
  generateKey req = generateKey req' →
  method req = "GET" → method req' = "GET" →
  originalUrl req = originalUrl req'.
Proof.
  unfold generateKey. intros Hkey Hm Hm'. rewrite Hm, Hm' in Hkey.
  by repeat apply String.app_inj in Hkey.
Qed.

Section SystemProperties.

Context {E : Type}.
Variable toString_utf8 : list Byte.byte → string.
Variable JSON_parse : string → Result E Value.
Variable toon_encode : Value → EncodeOptions → Result E string.
Variable CACHE_TTL : nat.

Local Abbreviation step' := (step toString_utf8 JSON_parse toon_encode CACHE_TTL).
Local Abbreviation run' := (run toString_utf8 JSON_parse toon_encode CACHE_TTL).

Lemma consistent_init : consistent init.
Proof.
  split.
  - intros key value Hlook. simpl in Hlook. by rewrite lookup_empty in Hlook.
  - intros later earlier req body Hlog. simpl in Hlog.
    by destruct later.
Qed.

(** A new log entry that is not a HIT keeps the HITs justified. *)
Lemma hits_repeat_cons_proxied g req body st c :
  hits_repeat g →
  hits_repeat {| redisConnected := c; store := st;
                 log := Proxied req body :: log g |}.
Proof.
  intros Hhits later earlier req0 body0. simpl.
  destruct later as [|o later]; simpl; [discriminate|].
  intros [= _ Hlog]. by apply (Hhits later).
Qed.

Lemma consistent_step g ev : consistent g → consistent (step' g ev).
Proof.
  intros [Hstored Hhits]. destruct ev as [e | key | rejects req res | lost buf hs req res].
  - (* the connected flag changes *)
    split; [exact Hstored | exact Hhits].
  - (* a key expires *)
    split; [|exact Hhits].
    intros k v. simpl. intros Hlook.
    apply lookup_delete_Some in Hlook as [_ Hlook]. by apply Hstored.
  - (* the cache middleware runs *)
    simpl.
    destruct (cacheMiddleware _ _ req res) as [[res' body | res'] cmds] eqn:Hmw;
      simpl; [|by split].
    apply cacheMiddleware_send in Hmw as (Hm & _ & _ & _ & Hget).
    unfold redis_get in Hget. destruct rejects; [discriminate|].
    injection Hget as Hlook.
    destruct (Hstored _ _ Hlook) as (req' & Hkey & Hm' & Hin).
    split.
    + intros k v Hk. simpl in Hk.
      destruct (Hstored _ _ Hk) as (r & ? & ? & ?).
      exists r. simpl. auto.
    + intros later earlier req0 body0. simpl.
      destruct later as [|o later]; simpl.
      * intros [= <- <- <-]. exists req'. split; [exact Hin|].
        split; [congruence|].
        symmetry. by apply generateKey_GET_inj.
      * intros [= _ Hlog]. by apply (Hhits later).
  - (* the interceptor runs *)
    simpl.
    destruct (onProxyRes _ _ _ _ _ buf hs req res) as [[body res'] cmds] eqn:Hproxy.
    split; [|by apply hits_repeat_cons_proxied].
    intros k v. simpl. intros Hk.
    assert (Hold : store g !! k = Some v →
              ∃ r, k = generateKey r ∧ method r = "GET" ∧
                   In (Proxied r (Text v)) (Proxied req body :: log g)).
    { intros Hlook. destruct (Hstored _ _ Hlook) as (r & ? & ? & ?).
      exists r. simpl. auto. }
    destruct lost; [by apply Hold|].
    destruct cmds as [|cmd cmds]; [by apply Hold|].
    destruct (onProxyRes_commands _ _ _ _ _ _ _ _ _ _ _ _ cmd Hproxy (or_introl eq_refl))
      as (jsonBody & toonBody & _ & _ & -> & -> & Hm & _ & _).
    assert (cmds = []) as ->.
    { destruct cmds as [|cmd' cmds]; [reflexivity|].
      revert Hproxy. unfold onProxyRes.
      repeat (case_match; try discriminate). }
    simpl in Hk. destruct (decide (generateKey req = k)) as [<- | Hne].
    + rewrite lookup_insert_eq in Hk. injection Hk as <-.
      exists req. simpl. auto.
    + rewrite lookup_insert_ne in Hk by exact Hne. by apply Hold.
Qed.

Lemma consistent_foldl events g :
  consistent g → consistent (foldl step' g events).
Proof.
  revert g. induction events as [|ev events IH]; intros g Hg; [exact Hg|].
  simpl. apply IH. by apply consistent_step.
Qed.

Lemma consistent_run events : consistent (run' events).
Proof. apply consistent_foldl, consistent_init. Qed.

(** C9: the only command the interceptor sends to Redis is a [SET] of
    the very text it returns, the encoding of the parsed body, under the
    key
    ['toon_cache:' + req.method + ':' + req.originalUrl] with the
    configured time to live, and only for a GET request whose response
    status is 200 while the connected flag is on.  Hence, along every
    run of the gateway from its start, each cached string was returned
    for a GET request with that key, and each body served as a cache HIT
    repeats an earlier returned encoding for the same method and URL. *)
Theorem cache_holds_returned_encodings :
  (∀ isConn buf hs req res body res' cmds cmd,
     onProxyRes toString_utf8 JSON_parse toon_encode CACHE_TTL
       isConn buf hs req res = (body, res', cmds) →
     In cmd cmds →
     ∃ jsonBody toonBody,
       JSON_parse (toString_utf8 buf) = Ok jsonBody ∧
       encodeToToon toon_encode jsonBody None = Ok toonBody ∧
       cmd = SET ("toon_cache:" +:+ method req +:+ ":" +:+ originalUrl req)
                 toonBody CACHE_TTL ∧
       body = Text toonBody ∧
       method req = "GET" ∧ statusCode res = 200 ∧ isConn = true) ∧
  (∀ events key value,
     store (run' events) !! key = Some value →
     ∃ req, key = generateKey req ∧ method req = "GET" ∧
            In (Proxied req (Text value)) (log (run' events))) ∧
  (∀ events later earlier req body,
     log (run' events) = (later ++ Hit req body :: earlier)%list →
     ∃ req', In (Proxied req' (Text body)) earlier ∧
             method req' = method req ∧ originalUrl req' = originalUrl req).
Proof.
  split; [|split].
  - intros * Hproxy Hin. by apply (onProxyRes_commands _ _ _ _ _ _ _ _ _ _ _ _ _ Hproxy).
  - intros events. apply (consistent_run events).
  - intros events. apply (consistent_run events).
Qed.

End SystemProperties.

(** A run on which a HIT occurs: Redis connects, [GET /posts/1] misses,
    the upstream answer is encoded and cached, and the same request is
    then served from the cache. *)
Lemma cache_holds_returned_encodings_witness :
  ∃ req', In (Proxied req' (Text "null")) [Proxied sample_request (Text "null")] ∧
          method req' = "GET" ∧ originalUrl req' = "/posts/1".
Proof.
  destruct (cache_holds_returned_encodings String.string_of_list_byte
              sample_parse sample_encode 300) as (_ & _ & Hhits).
  exact (Hhits [Redis OnConnect;
                Incoming false sample_request sample_response;
                Upstream false null_bytes json_headers sample_request sample_response;
                Incoming false sample_request sample_response]
               [] [Proxied sample_request (Text "null")]
               sample_request "null" eq_refl).
Defined.

(** * Properties of the codec *)

(** The modelled decoder reads back what the modelled encoder writes for
    the sample values. *)
Example decode_encode_users :
  (text ← encode users emptyEncodeOptions; decode text emptyDecodeOptions)
  = Returns users.
Proof. reflexivity. Qed.

Example decode_encode_report :
  (text ← encode report emptyEncodeOptions; decode text emptyDecodeOptions)
  = Returns report.
Proof. reflexivity. Qed.

Example encode_report :
  encode report emptyEncodeOptions
  = Returns (String.concat (String LF EmptyString)
      ["users[2]{id,name}:"; "  1,Alice"; "  2,Bob"; "ratio: 1.5"; "meta:";
       "  tag: " +:+ quote "true"; "  note: " +:+ quote "a, b"; "  none: null";
       "empty[0]:"]).
Proof. reflexivity. Qed.

Lemma splitLines_line (r rest : string) :
  contains LF r = false →
  splitLines (r +:+ String LF rest) = r :: splitLines rest.
Proof.
  induction r as [|c r IH]; simpl; [reflexivity|].
  intros [Hc Hr]%orb_false_elim. rewrite Hc. by rewrite IH.
Qed.

Lemma splitLines_last (r : string) :
  contains LF r = false → splitLines r = [r].
Proof.
  induction r as [|c r IH]; simpl; [reflexivity|].
  intros [Hc Hr]%orb_false_elim.
  rewrite Hc. by rewrite IH.
Qed.

(** A row indented by two spaces is a line of depth 1 when the indent
    size is 2. *)
Lemma tokenizeFrom_row (p : nat) (c : ascii) (r : string) (rest : list string) :
  isSpace c = false →
  tokenizeFrom true 2 (Some p) (("  " +:+ String c r) :: rest) =
    ls ← tokenizeFrom true 2 (Some 1) rest; Returns ((1, String c r) :: ls).
Proof.
  intros Hc.
  assert (Ascii.eqb " " c = false) as Hsp.
  { destruct (Ascii.eqb_spec " " c) as [<-|]; [discriminate | reflexivity]. }
  change ("  " +:+ String c r) with (String " " (String " " (String c r))).
  cbn -[Ascii.eqb isSpace Nat.modulo Nat.div Nat.ltb].
  rewrite Hc, !Ascii.eqb_refl, Hsp, !andb_false_r.
  cbn -[Nat.ltb]. destruct p; reflexivity.
Qed.

(** Rows that run out before the declared count: strict mode reports a
    length mismatch, whether a row has the wrong number of tokens or the
    lines end first. *)
Lemma parseRows_short (fields : list string) (d n : nat) (rows : list string) :
  length rows < n →
  Forall (λ r, ∃ values,
            mapM decodeToken (splitRow (delimiterChar Comma) false r) = Returns values)
         rows →
  parseRows true (delimiterChar Comma) fields d n (map (λ r, (d, r)) rows)
  = Raises LengthMismatchError.
Proof.
  revert n. induction rows as [|r rows IH]; intros n Hlen Hrows.
  - destruct n; [simpl in Hlen; lia | reflexivity].
  - destruct n as [|n]; [simpl in Hlen; lia|].
    apply Forall_cons in Hrows as [[values Hvalues] Hrows].
    cbn [map parseRows fst snd]. rewrite Nat.eqb_refl.
    destruct (length _ =? length fields)%nat; cbn [negb]; [|reflexivity].
    rewrite Hvalues. cbn [mbind Outcome_bind].
    rewrite IH; [reflexivity | simpl in Hlen; lia | exact Hrows].
Qed.

(** The lines of a block with header [[3]{a}:] and two rows. *)
Lemma tokenize_block2 (c1 c2 : ascii) (r1 r2 : string) :
  contains LF (String c1 r1) = false → contains LF (String c2 r2) = false →
  isSpace c1 = false → isSpace c2 = false →
  tokenize true 2 (block "[3]{a}:" [String c1 r1; String c2 r2])
  = Returns [(0, "[3]{a}:"); (1, String c1 r1); (1, String c2 r2)].
Proof.
  intros Hlf1 Hlf2 Hc1 Hc2. unfold tokenize, block.
  change (String.concat _ _) with
    ("[3]{a}:" +:+ String LF (("  " +:+ String c1 r1) +:+
       String LF ("  " +:+ String c2 r2))).
  rewrite splitLines_line by reflexivity.
  rewrite splitLines_line by exact Hlf1.
  rewrite splitLines_last by exact Hlf2.
  change (tokenizeFrom true 2 None ("[3]{a}:" :: ?l))
    with (ls ← tokenizeFrom true 2 (Some 0) l; Returns ((0, "[3]{a}:") :: ls)).
  rewrite !tokenizeFrom_row by assumption. reflexivity.
Qed.

(** A first line [[3]{a}:] opens a root array of three rows with the one
    field [a], whose rows are the lines of depth 1. *)
Lemma decodeLines_header3 (strict : bool) (lines : list Line) :
  decodeLines strict (delimiterChar Comma) ((0, "[3]{a}:") :: lines)
  = '(rows, rest1) ← parseRows strict (delimiterChar Comma) ["a"] 1 3 lines;
    match rest1 with
    | [] => Returns (VArray rows)
    | _ :: _ => Open
    end.
Proof. reflexivity. Qed.

(** C3: in strict mode, decoding a block whose header is [[3]{a}:] and
    which has only two data rows fails with [LengthMismatchError]. *)
Theorem length_enforcement (row1 row2 : string) :
  dataRow row1 → dataRow row2 →
  decodeFromToon decode (block "[3]{a}:" [row1; row2]) (Some strictOptions)
  = Raises LengthMismatchError.
Proof.
  intros (Hlf1 & (c1 & r1 & -> & Hc1) & Hv1) (Hlf2 & (c2 & r2 & -> & Hc2) & Hv2).
  change (decodeFromToon decode ?text (Some strictOptions))
    with (lines ← tokenize true 2 text; decodeLines true (delimiterChar Comma) lines).
  rewrite tokenize_block2 by assumption.
  cbn [mbind Outcome_bind]. rewrite decodeLines_header3.
  assert (Hshort := parseRows_short ["a"] 1 3 [String c1 r1; String c2 r2]).
  cbn [map] in Hshort.
  rewrite Hshort; [reflexivity | simpl; lia | by repeat constructor].
Qed.

Lemma length_enforcement_witness :
  decodeFromToon decode (block "[3]{a}:" ["1"; "2"]) (Some strictOptions)
  = Raises LengthMismatchError.
Proof.
  apply (length_enforcement "1" "2");
    (split; [reflexivity | split; [by eexists _, _ | by eexists]]).
Defined.

(** C2, as the codec has it: with the options omitted, the array of the
    two objects [{id: 1, name: Alice}] and [{id: 2, name: Bob}] is
    encoded as the header [[2]{id,name}:] followed by the rows [1,Alice]
    and [2,Bob], each row one level deeper, that is behind two spaces. *)
Theorem tabular_exactness :
  encodeToToon encode users None
  = Returns (String.concat (String LF EmptyString)
               ["[2]{id,name}:"; "  1,Alice"; "  2,Bob"]).
Proof. reflexivity. Qed.

(** The three lines without the indentation of the rows are not the text
    that is produced. *)
Lemma tabular_rows_are_indented :
  encodeToToon encode users None
  ≠ Returns (String.concat (String LF EmptyString)
               ["[2]{id,name}:"; "1,Alice"; "2,Bob"]).
Proof. discriminate. Qed.

(** C4: the string [true] is encoded in quotes; the quoted token decodes
    to the string [true] and the bare token [true] to the boolean. *)
Theorem literal_disambiguation :
  encodeToToon encode (VString "true") None
  = Returns (String DQ ("true" +:+ String DQ EmptyString)) ∧
  decodeFromToon decode (String DQ ("true" +:+ String DQ EmptyString)) None
  = Returns (VString "true") ∧
  decodeFromToon decode "true" None = Returns (VBool true).
Proof. repeat split. Qed.

(** * Further properties of the gateway *)

(** ** The Redis client options and the connected flag *)

(** X1: from the first attempt on, the retry delay starts at 50 ms, never
    decreases from one attempt to a later one, never exceeds 2000 ms, and
    is 50 ms per attempt up to the 40th, from which it stays at 2000. *)
Theorem retryStrategy_bounds (times later : Z) :
  (1 ≤ times)%Z → (times ≤ later)%Z →
  (50 ≤ retryStrategy times)%Z ∧
  (retryStrategy times ≤ retryStrategy later)%Z ∧
  (retryStrategy later ≤ 2000)%Z ∧
  retryStrategy times = (if (times <? 40)%Z then times * 50 else 2000)%Z.
Proof.
  unfold retryStrategy. intros H1 H2.
  destruct (Z.ltb_spec times 40); lia.
Qed.

Lemma retryStrategy_bounds_witness :
  (50 ≤ retryStrategy 3)%Z ∧
  (retryStrategy 3 ≤ retryStrategy 50)%Z ∧
  (retryStrategy 50 ≤ 2000)%Z ∧
  retryStrategy 3 = (if (3 <? 40)%Z then 3 * 50 else 2000)%Z.
Proof. apply (retryStrategy_bounds 3 50); lia. Defined.

Lemma prefix_app (sub s : string) :
  String.prefix sub s = true ↔ ∃ post, s = sub +:+ post.
Proof.
  revert s. induction sub as [|a sub IH]; intros s.
  - split; [intros _; exists s; reflexivity | by destruct s].
  - destruct s as [|b s]; simpl;
      [split; [discriminate | intros [post ?]; discriminate]|].
    destruct (ascii_dec a b) as [<- | Hne].
    + rewrite IH. split; intros [post Hpost]; exists post.
      * by rewrite Hpost.
      * by injection Hpost.
    + split; [discriminate | intros [post [= ? _]]; done].
Qed.

(** [includes] is the substring test. *)
Lemma includes_app (s sub : string) :
  includes s sub = true ↔ ∃ pre post, s = pre +:+ sub +:+ post.
Proof.
  induction s as [|c s IH]; cbn [includes].
  - rewrite orb_false_r, prefix_app. split.
    + intros [post ->]. by exists "", post.
    + intros (pre & post & Heq). destruct pre; [by exists post | discriminate].
  - rewrite orb_true_iff, prefix_app, IH. split.
    + intros [[post Heq] | (pre & post & ->)].
      * by exists "", post.
      * by exists (String c pre), post.
    + intros ([|c' pre] & post & Heq).
      * left. by exists post.
      * right. injection Heq as -> ->. by exists pre, post.
Qed.

(** X2: the client reconnects on exactly the errors whose message has
    [READONLY] somewhere in it. *)
Theorem reconnectOnError_iff (message : string) :
  reconnectOnError message = true ↔
  ∃ pre post, message = pre +:+ "READONLY" +:+ post.
Proof.
  unfold reconnectOnError. rewrite <- includes_app.
  by destruct (includes message "READONLY").
Qed.

Section FlagProperties.

Context {E : Type}.
Variable toString_utf8 : list Byte.byte → string.
Variable JSON_parse : string → Result E Value.
Variable toon_encode : Value → EncodeOptions → Result E string.
Variable CACHE_TTL : nat.

Local Abbreviation step' := (step toString_utf8 JSON_parse toon_encode CACHE_TTL).
Local Abbreviation run' := (run toString_utf8 JSON_parse toon_encode CACHE_TTL).

(** Only the client events of Redis touch the connected flag. *)
Lemma step_redisConnected g ev :
  redisConnected (step' g ev) =
    match ev with
    | Redis e => on e (redisConnected g)
    | _ => redisConnected g
    end.
Proof.
  destruct ev as [e | key | rejects req res | lost buf hs req res]; simpl;
    try reflexivity.
  - by destruct (cacheMiddleware _ _ req res).1.
  - by destruct (onProxyRes _ _ _ _ _ buf hs req res) as [[? ?] ?].
Qed.

Lemma foldl_redisConnected events g :
  redisConnected (foldl step' g events) =
    from_option (λ e, on e false) (redisConnected g) (last (redisEvents events)).
Proof.
  revert g. induction events as [|ev events IH]; intros g; [reflexivity|].
  simpl foldl. rewrite IH, step_redisConnected.
  destruct ev as [e | | |]; try reflexivity.
  change (redisEvents (Redis e :: events)) with (e :: redisEvents events).
  rewrite last_cons. destruct (last (redisEvents events)); [reflexivity|].
  by destruct e.
Qed.

(** X3: after any run of the gateway the connected flag tells whether the
    most recent client event of Redis was [connect] or [ready] (it is off
    when there was none), whatever requests were handled in between; the
    health check answers 200 with [redis: connected] when it is on, and
    503 with [redis: disconnected], still under [status: healthy], when
    it is off. *)
Theorem health_follows_last_event {U : Type} (events : list Event) (up : U) (now : string) :
  let connected :=
    match last (redisEvents events) with
    | Some OnConnect | Some OnReady => true
    | _ => false
    end in
  isRedisConnected (run' events) = connected ∧
  HealthCheck.handler (isRedisConnected (run' events)) up now =
    (if connected then 200 else 503,
     {| HealthCheck.status := "healthy";
        HealthCheck.uptime := up;
        HealthCheck.redis := if connected then "connected" else "disconnected";
        HealthCheck.timestamp := now |}).
Proof.
  intros connected.
  assert (isRedisConnected (run' events) = connected) as ->.
  { unfold isRedisConnected, run, connected. rewrite foldl_redisConnected.
    destruct (last (redisEvents events)) as [[]|]; reflexivity. }
  split; [reflexivity|]. by destruct connected.
Qed.

End FlagProperties.

(** ** The cache middleware, case by case *)


(** X5: the middleware only reads: whatever the request and whatever
    Redis answers, it sends no command but at most one [GET] of the key
    of the request, it leaves the status code alone, and it touches no
    header other than [X-Cache] and [Content-Type]. *)
Theorem cacheMiddleware_only_reads isConn get req res name :
  let '(handled, cmds) := cacheMiddleware isConn get req res in
  (cmds = [] ∨ cmds = [GET (generateKey req)]) ∧
  statusCode (handledResponse handled) = statusCode res ∧
  (toLowerCase name ≠ "x-cache" → toLowerCase name ≠ "content-type" →
   getHeader name (handledResponse handled) = getHeader name res).
Proof.
  unfold cacheMiddleware.
  destruct (negb _); [by auto|].
  destruct (String.eqb (path req) _); [by auto|].
  destruct (negb isConn).
  - split; [auto|]. split; [reflexivity|]. intros Hx _.
    unfold getHeader, setHeader. simpl. by rewrite lookup_insert_ne.
  - destruct (get _) as [cachedData|]; [destruct (truthy cachedData)|];
      (split; [auto|]; split; [reflexivity|]; intros Hx Hc;
       unfold getHeader, setHeader; simpl;
       rewrite ?lookup_insert_ne; done).
Qed.

(** X6: a cache that fails or has nothing to offer never stops a request:
    for a GET that reaches the cache, a rejected [redis.get] passes the
    request on with [X-Cache: ERROR], and a missing or empty entry passes
    it on with [X-Cache: MISS]. *)
Theorem cacheMiddleware_passes_on get req res :
  method req = "GET" → path req ≠ "/health" →
  (∀ body, get (generateKey req) = Resolved (Some body) → body = "") →
  cacheMiddleware true get req res =
    (Next (setHeader "X-Cache"
             match get (generateKey req) with
             | Rejected => "ERROR"
             | Resolved _ => "MISS"
             end res),
     [GET (generateKey req)]).
Proof.
  intros Hm Hp Hempty. unfold cacheMiddleware.
  apply String.eqb_eq in Hm. apply String.eqb_neq in Hp. rewrite Hm, Hp. simpl.
  destruct (get (generateKey req)) as [[body|]|]; try reflexivity.
  by rewrite (Hempty body eq_refl).
Qed.

Lemma cacheMiddleware_passes_on_witness :
  cacheMiddleware true (redis_get true ∅) sample_request sample_response =
    (Next (setHeader "X-Cache" "ERROR" sample_response),
     [GET (generateKey sample_request)]).
Proof.
  apply (cacheMiddleware_passes_on (redis_get true ∅) sample_request sample_response);
    [reflexivity | discriminate | discriminate].
Defined.

(** ** The response interceptor beyond the body *)

Section InterceptorProperties.

Context {E : Type}.
Variable toString_utf8 : list Byte.byte → string.
Variable JSON_parse : string → Result E Value.
Variable toon_encode : Value → EncodeOptions → Result E string.
Variable CACHE_TTL : nat.

Local Abbreviation onProxyRes' :=
  (onProxyRes toString_utf8 JSON_parse toon_encode CACHE_TTL).

(** The interceptor either hands the buffer and the response back
    untouched, or returns a text with the three header updates. *)
Lemma onProxyRes_cases isConn buf hs req res :
  onProxyRes' isConn buf hs req res = (Buffer buf, res, []) ∨
  ∃ toonBody cmds,
    onProxyRes' isConn buf hs req res =
      (Text toonBody,
       removeHeader "etag"
         (removeHeader "content-length"
            (setHeader "Content-Type" "text/toon; charset=utf-8" res)),
       cmds).
Proof.
  unfold onProxyRes.
  destruct (truthy _ && includes _ _); [|by left].
  destruct (JSON_parse _) as [jsonBody|]; [|by left].
  destruct (encodeToToon _ _ _) as [toonBody|]; [|by left].
  right. by eexists _, _.
Qed.

(** X7: the interceptor never changes the status code and never touches
    a header other than [Content-Type], [Content-Length] and [ETag] (so
    the [X-Cache] header set by the cache middleware survives); when it
    returns a text, the [Content-Length] and [ETag] of the upstream body
    are gone. *)
Theorem onProxyRes_headers isConn buf hs req res name :
  let '(body, res', _) := onProxyRes' isConn buf hs req res in
  statusCode res' = statusCode res ∧
  (toLowerCase name ≠ "content-type" → toLowerCase name ≠ "content-length" →
   toLowerCase name ≠ "etag" → getHeader name res' = getHeader name res) ∧
  (∀ text, body = Text text →
     getHeader "Content-Length" res' = None ∧ getHeader "ETag" res' = None).
Proof.
  destruct (onProxyRes_cases isConn buf hs req res)
    as [-> | (toonBody & cmds & ->)].
  - split; [reflexivity|]. split; [reflexivity | discriminate].
  - split; [reflexivity|]. unfold getHeader, removeHeader, setHeader. simpl.
    split.
    + intros Hct Hcl Hetag.
      by rewrite !lookup_delete_ne, lookup_insert_ne.
    + intros _ _. split.
      * rewrite lookup_delete_ne by (vm_compute; discriminate).
        apply lookup_delete_eq.
      * apply lookup_delete_eq.
Qed.

(** X8: a response whose content type has [application/json] anywhere in
    it (a charset parameter may follow) and whose body parses and encodes
    is always returned as TOON text; it is stored in Redis exactly when
    the request is a GET, the status code is 200 and the connected flag
    is on.  The encoding of an error response or of the answer to a POST
    is returned but not cached. *)
Theorem onProxyRes_caches_iff isConn buf hs req res pre post jsonBody toonBody :
  hs !! "content-type" = Some (pre +:+ "application/json" +:+ post) →
  JSON_parse (toString_utf8 buf) = Ok jsonBody →
  encodeToToon toon_encode jsonBody None = Ok toonBody →
  ∃ res',
    onProxyRes' isConn buf hs req res =
      (Text toonBody, res',
       if bool_decide (method req = "GET" ∧ statusCode res = 200 ∧ isConn = true)
       then [SET (generateKey req) toonBody CACHE_TTL] else []).
Proof.
  intros Hhs Hparse Henc.
  assert (Hinc : includes (pre +:+ "application/json" +:+ post) "application/json" = true).
  { apply includes_app. by exists pre, post. }
  rewrite (onProxyRes_json _ _ _ _ _ _ _ _ _ _ Hhs Hinc), Hparse, Henc.
  eexists. do 2 f_equal.
  case_bool_decide as Hcache.
  - destruct Hcache as (Hm & Hs & ->).
    apply String.eqb_eq in Hm. apply Nat.eqb_eq in Hs. by rewrite Hm, Hs.
  - destruct (String.eqb_spec (method req) "GET") as [Hm | Hm]; [|reflexivity].
    destruct (Nat.eqb_spec (statusCode res) 200) as [Hs | Hs]; [|reflexivity].
    destruct isConn; [|reflexivity]. by destruct Hcache.
Qed.

(** X9: what the client receives does not depend on the cache: the body
    and the headers the interceptor produces are the same whether Redis
    is connected or not. *)
Theorem onProxyRes_ignores_cache buf hs req res :
  (onProxyRes toString_utf8 JSON_parse toon_encode CACHE_TTL true buf hs req res).1
  = (onProxyRes toString_utf8 JSON_parse toon_encode CACHE_TTL false buf hs req res).1.
Proof.
  unfold onProxyRes.
  destruct (truthy _ && includes _ _); [|reflexivity].
  destruct (JSON_parse _) as [jsonBody|]; [|reflexivity].
  by destruct (encodeToToon _ _ _) as [toonBody|].
Qed.

End InterceptorProperties.

Lemma onProxyRes_caches_iff_witness :
  ∃ res',
    onProxyRes String.string_of_list_byte sample_parse sample_encode 300
      true null_bytes json_headers sample_request sample_response =
      (Text "null", res',
       if bool_decide (method sample_request = "GET" ∧
                       statusCode sample_response = 200 ∧ true = true)
       then [SET (generateKey sample_request) "null" 300] else []).
Proof.
  apply (onProxyRes_caches_iff String.string_of_list_byte sample_parse
           sample_encode 300 true null_bytes json_headers sample_request
           sample_response "" "; charset=utf-8" VNull "null");
    reflexivity.
Defined.

(** ** Cache keys *)

Lemma includes_colon_cons (c : ascii) (s : string) :
  includes (String c s) ":" = false → c ≠ ":"%char ∧ includes s ":" = false.
Proof.
  cbn [includes]. intros [Hp Hs]%orb_false_elim. split; [|exact Hs].
  intros ->. simpl in Hp. by destruct s.
Qed.

(** Two texts cut at their first colon agree part by part. *)
Lemma colon_split_inj (m1 m2 u1 u2 : string) :
  includes m1 ":" = false → includes m2 ":" = false →
  m1 +:+ ":" +:+ u1 = m2 +:+ ":" +:+ u2 → m1 = m2 ∧ u1 = u2.
Proof.
  revert m2. induction m1 as [|c1 m1 IH]; intros [|c2 m2] H1 H2 Heq; simpl in Heq.
  - by injection Heq.
  - apply includes_colon_cons in H2 as [Hc _]. by injection Heq as <-.
  - apply includes_colon_cons in H1 as [Hc _]. by injection Heq as ->.
  - apply includes_colon_cons in H1 as [_ H1].
    apply includes_colon_cons in H2 as [_ H2].
    injection Heq as -> Heq. destruct (IH m2 H1 H2 Heq) as [-> ->]. done.
Qed.

(** X10: requests whose methods contain no colon (as HTTP methods do)
    get the same cache key only when they have the same method and the
    same URL: no two such requests share a cache entry by accident. *)
Theorem generateKey_inj (req req' : Request) :
  includes (method req) ":" = false → includes (method req') ":" = false →
  generateKey req = generateKey req' →
  method req = method req' ∧ originalUrl req = originalUrl req'.
Proof.
  unfold generateKey. intros H1 H2 Hkey.
  apply String.app_inj in Hkey. by apply colon_split_inj.
Qed.

Lemma generateKey_inj_witness :
  method sample_request = "GET" ∧ originalUrl sample_request = "/posts/1".
Proof.
  apply (generateKey_inj sample_request
           {| method := "GET"; path := "/posts/1/"; originalUrl := "/posts/1" |});
    reflexivity.
Defined.

(** ** Runs of the gateway *)

Section RunProperties.

Context {E : Type}.
Variable toString_utf8 : list Byte.byte → string.
Variable JSON_parse : string → Result E Value.
Variable toon_encode : Value → EncodeOptions → Result E string.
Variable CACHE_TTL : nat.

Local Abbreviation step' := (step toString_utf8 JSON_parse toon_encode CACHE_TTL).
Local Abbreviation run' := (run toString_utf8 JSON_parse toon_encode CACHE_TTL).

(** X11: a cached answer comes back: when a GET request for a path other
    than [/health] gets a 200 JSON answer from upstream while Redis is
    connected, and the encoding is not empty and its [SET] reaches the
    server, the same request arriving next is served that encoding from
    the cache. *)
Theorem cached_then_hit g buf hs req res res2 pre post jsonBody toonBody :
  redisConnected g = true →
  method req = "GET" → path req ≠ "/health" → statusCode res = 200 →
  hs !! "content-type" = Some (pre +:+ "application/json" +:+ post) →
  JSON_parse (toString_utf8 buf) = Ok jsonBody →
  encodeToToon toon_encode jsonBody None = Ok toonBody →
  toonBody ≠ "" →
  let g1 := step' g (Upstream false buf hs req res) in
  store g1 !! generateKey req = Some toonBody ∧
  log (step' g1 (Incoming false req res2)) =
    Hit req toonBody :: Proxied req (Text toonBody) :: log g.
Proof.
  intros Hconn Hm Hp Hs Hhs Hparse Henc Hne g1.
  assert (Hinc : includes (pre +:+ "application/json" +:+ post) "application/json" = true).
  { apply includes_app. by exists pre, post. }
  assert (Hproxy := onProxyRes_json toString_utf8 JSON_parse toon_encode CACHE_TTL
                      true buf hs req res _ Hhs Hinc).
  rewrite Hparse, Henc in Hproxy.
  apply String.eqb_eq in Hm. apply String.eqb_neq in Hp, Hne. apply Nat.eqb_eq in Hs.
  rewrite Hm, Hs in Hproxy. simpl in Hproxy.
  assert (Hg1 : g1 = {| redisConnected := true;
                        store := <[generateKey req := toonBody]> (store g);
                        log := Proxied req (Text toonBody) :: log g |}).
  { unfold g1. simpl. unfold isRedisConnected. rewrite Hconn, Hproxy.
    reflexivity. }
  rewrite Hg1. split; [apply lookup_insert_eq|].
  simpl. unfold cacheMiddleware, redis_get.
  rewrite Hm, Hp. simpl. rewrite lookup_insert_eq. simpl. by rewrite Hne.
Qed.

(** X12: while the connected flag is off the cache is neither read nor
    written: a request passes the middleware without any effect on the
    gateway, and an upstream response leaves the stored entries as they
    are. *)
Theorem disconnected_leaves_cache g rejects lost buf hs req res :
  isRedisConnected g = false →
  step toString_utf8 JSON_parse toon_encode CACHE_TTL g (Incoming rejects req res) = g ∧
  store (step toString_utf8 JSON_parse toon_encode CACHE_TTL g
           (Upstream lost buf hs req res)) = store g.
Proof.
  unfold isRedisConnected. intros Hconn. split.
  - simpl. unfold isRedisConnected. rewrite Hconn.
    unfold cacheMiddleware.
    destruct (negb (String.eqb (method req) "GET")); [reflexivity|].
    by destruct (String.eqb (path req) "/health").
  - simpl. unfold isRedisConnected. rewrite Hconn.
    destruct (onProxyRes _ _ _ _ _ buf hs req res) as [[body res'] cmds] eqn:Hproxy.
    simpl. destruct lost; [reflexivity|].
    destruct cmds as [|cmd cmds]; [reflexivity|].
    by destruct (onProxyRes_commands _ _ _ _ _ _ _ _ _ _ _ _ cmd Hproxy
                   (or_introl eq_refl))
      as (? & ? & _ & _ & _ & _ & _ & _ & ?).
Qed.

(** X13: the gateway keeps to its own corner of Redis: after any run,
    every key it has stored begins with [toon_cache:GET:]. *)
Theorem stored_keys_namespace events key :
  is_Some (store (run toString_utf8 JSON_parse toon_encode CACHE_TTL events) !! key) →
  ∃ url, key = "toon_cache:GET:" +:+ url.
Proof.
  intros [value Hvalue].
  destruct (consistent_run toString_utf8 JSON_parse toon_encode CACHE_TTL events)
    as [Hstored _].
  destruct (Hstored key value Hvalue) as (req & -> & Hm & _).
  exists (originalUrl req). unfold generateKey. by rewrite Hm.
Qed.

End RunProperties.

Lemma cached_then_hit_witness :
  let g1 := step String.string_of_list_byte sample_parse sample_encode 300
              (run String.string_of_list_byte sample_parse sample_encode 300
                 [Redis OnReady])
              (Upstream false null_bytes json_headers sample_request sample_response) in
  store g1 !! generateKey sample_request = Some "null" ∧
  log (step String.string_of_list_byte sample_parse sample_encode 300 g1
         (Incoming false sample_request sample_response)) =
    [Hit sample_request "null"; Proxied sample_request (Text "null")].
Proof.
  apply (cached_then_hit String.string_of_list_byte sample_parse sample_encode 300
           (run String.string_of_list_byte sample_parse sample_encode 300
              [Redis OnReady])
           null_bytes json_headers sample_request sample_response sample_response
           "" "; charset=utf-8" VNull "null");
    (reflexivity || discriminate).
Defined.

Lemma disconnected_leaves_cache_witness :
  step String.string_of_list_byte sample_parse sample_encode 300 init
    (Incoming false sample_request sample_response) = init ∧
  store (step String.string_of_list_byte sample_parse sample_encode 300 init
           (Upstream false null_bytes json_headers sample_request sample_response))
  = store init.
Proof.
  apply (disconnected_leaves_cache String.string_of_list_byte sample_parse
           sample_encode 300 init false false null_bytes json_headers
           sample_request sample_response).
  reflexivity.
Defined.

Lemma stored_keys_namespace_witness :
  ∃ url, generateKey sample_request = "toon_cache:GET:" +:+ url.
Proof.
  apply (stored_keys_namespace String.string_of_list_byte sample_parse sample_encode 300
           [Redis OnReady;
            Upstream false null_bytes json_headers sample_request sample_response]).
  by exists "null".
Defined.

(** * Properties of the conformance test runner *)

Section RunnerProperties.

Import TestRunner.

Variable toon_encode : Value → EncodeOptions → Result string string.
Variable toon_decode : string → DecodeOptions → Result string Value.
Variable JSON_stringify : Value → string.
Variable undefinedMessage : string.

Local Abbreviation runEncodeTest' := (runEncodeTest toon_encode undefinedMessage).
Local Abbreviation runDecodeTest' := (runDecodeTest toon_decode JSON_stringify).
Local Abbreviation run' := (TestRunner.run toon_encode toon_decode JSON_stringify undefinedMessage).









Lemma pass_neq_fail r f : pass r ≠ fail f r.
Proof. intros Heq. apply (f_equal (λ r, failed (stats r))) in Heq. simpl in Heq. lia. Qed.

(** X15: an encode test is counted as passed exactly when the encoder
    returns a text equal, after normalization, to the expected text, or
    when the test expects an error and either the encoder throws or the
    fixture holds no expected text.  So a test that expects an error and
    carries no expected text passes whatever the encoder does. *)
Theorem runEncodeTest_passes_iff file r test :
  runEncodeTest' file r test = pass (countTotal r) ↔
  (∃ result expected,
     toon_encode (e_input test) (default emptyEncodeOptions (e_options test))
       = Ok result ∧
     e_expected test = Some expected ∧
     normalizeWhitespace result = normalizeWhitespace expected) ∨
  (e_shouldError test = true ∧
   ((∃ error, toon_encode (e_input test)
                (default emptyEncodeOptions (e_options test)) = Throw error) ∨
    e_expected test = None)).
Proof.
  unfold runEncodeTest, encodeAttempt, encodeToToon. simpl default.
  destruct (toon_encode _ _) as [result|error].
  - destruct (e_expected test) as [expected|].
    + destruct (String.eqb_spec (normalizeWhitespace result)
                  (normalizeWhitespace expected)) as [Heq|Hne].
      * split; [|reflexivity]. intros _. left. by exists result, expected.
      * split.
        -- intros Habs. symmetry in Habs. by apply pass_neq_fail in Habs.
        -- intros [(? & ? & [= <-] & [= <-] & ?) | (_ & [[? ?] | ?])]; done.
    + destruct (e_shouldError test).
      * split; [|reflexivity]. intros _. right. auto.
      * split.
        -- intros Habs. symmetry in Habs. by apply pass_neq_fail in Habs.
        -- intros [(? & ? & _ & ? & _) | (? & _)]; done.
  - destruct (e_shouldError test).
    + split; [|reflexivity]. intros _. right. split; [reflexivity|]. left. by exists error.
    + split.
      * intros Habs. symmetry in Habs. by apply pass_neq_fail in Habs.
      * intros [(? & ? & ? & _) | (? & _)]; done.
Qed.

(** X16: a decode test is counted as passed exactly when the decoder
    returns a value whose JSON text equals that of the expected value,
    or when it throws and the test expects an error; unlike an encode
    test, one that expects an error fails when the decoder returns and
    the fixture holds no expected value. *)
Theorem runDecodeTest_passes_iff file r test :
  runDecodeTest' file r test = pass (countTotal r) ↔
  (∃ result expected,
     toon_decode (d_input test) (default emptyDecodeOptions (d_options test))
       = Ok result ∧
     d_expected test = Some expected ∧
     JSON_stringify result = JSON_stringify expected) ∨
  (d_shouldError test = true ∧
   ∃ error, toon_decode (d_input test)
              (default emptyDecodeOptions (d_options test)) = Throw error).
Proof.
  unfold runDecodeTest, decodeFromToon. simpl default.
  destruct (toon_decode _ _) as [result|error].
  - case_bool_decide as Heq.
    + split; [|reflexivity]. intros _. left.
      destruct (d_expected test) as [expected|]; [|discriminate].
      exists result, expected. by injection Heq.
    + split.
      * intros Habs. symmetry in Habs. by apply pass_neq_fail in Habs.
      * intros [(? & expected & [= <-] & Hexp & Hs) | (_ & ? & ?)]; [|done].
        destruct Heq. by rewrite Hexp, Hs.
  - destruct (d_shouldError test).
    + split; [|reflexivity]. intros _. right. split; [reflexivity|]. by exists error.
    + split.
      * intros Habs. symmetry in Habs. by apply pass_neq_fail in Habs.
      * intros [(? & ? & ? & _) | (? & _)]; done.
Qed.

End RunnerProperties.

(** ** The text helpers of the runner *)

Lemma length_app_string (a b : string) :
  String.length (a +:+ b) = (String.length a + String.length b)%nat.
Proof. induction a as [|c a IH]; simpl; [reflexivity | by rewrite IH]. Qed.

Lemma length_substring_le (n : nat) (s : string) :
  (String.length (String.substring 0 n s) ≤ n)%nat.
Proof.
  revert n. induction s as [|c s IH]; intros [|n]; simpl; try lia.
  specialize (IH n). lia.
Qed.

(** Whether a one-character text occurs, character by character. *)
Lemma includes_char_cons (a c : ascii) (s : string) :
  includes (String a s) (String c "") =
    if Ascii.eqb c a then true else includes s (String c "").
Proof.
  cbn [includes]. simpl String.prefix.
  destruct (ascii_dec c a) as [-> | Hne].
  - rewrite Ascii.eqb_refl. by destruct s.
  - by apply Ascii.eqb_neq in Hne as ->.
Qed.

Lemma includes_char_app (c : ascii) (a b : string) :
  includes a (String c "") = false → includes b (String c "") = false →
  includes (a +:+ b) (String c "") = false.
Proof.
  intros Ha Hb. induction a as [|x a IH]; [exact Hb|].
  rewrite includes_char_cons in Ha.
  change (String x a +:+ b) with (String x (a +:+ b)). rewrite includes_char_cons.
  destruct (Ascii.eqb c x); [discriminate | by apply IH].
Qed.

Lemma includes_char_substring (c : ascii) (n : nat) (s : string) :
  includes s (String c "") = false →
  includes (String.substring 0 n s) (String c "") = false.
Proof.
  revert n. induction s as [|x s IH]; intros [|n] Hs; try reflexivity.
  rewrite includes_char_cons in Hs. simpl String.substring.
  rewrite includes_char_cons.
  destruct (Ascii.eqb c x); [discriminate | by apply IH].
Qed.

Section TextProperties.

Import TestRunner.

Lemma escapeNewlines_free (s : string) :
  includes (escapeNewlines s) (String newline "") = false.
Proof.
  induction s as [|c s IH]; [reflexivity|]. simpl escapeNewlines.
  destruct (Ascii.eqb c newline) eqn:Hc.
  - by rewrite !includes_char_cons.
  - rewrite includes_char_cons, Ascii.eqb_sym, Hc. exact IH.
Qed.

(** X17: the text [truncate] returns for a log line holds no line feed
    and is at most [maxLen] characters and an ellipsis of three long,
    [maxLen] being 100 when omitted. *)
Theorem truncate_bounds (str : string) (maxLen : option nat) :
  (String.length (truncate str maxLen) ≤ default 100 maxLen + 3)%nat ∧
  includes (truncate str maxLen) (String newline "") = false.
Proof.
  unfold truncate.
  destruct (Nat.ltb_spec (default 100 maxLen) (String.length (escapeNewlines str))).
  - split.
    + rewrite length_app_string. simpl.
      pose proof (length_substring_le (default 100 maxLen) (escapeNewlines str)). lia.
    + apply includes_char_app; [|reflexivity].
      apply includes_char_substring, escapeNewlines_free.
  - split; [lia | apply escapeNewlines_free].
Qed.

Lemma replaceCRLF_cons (c : ascii) (s : string) :
  c ≠ carriage → replaceCRLF (String c s) = String c (replaceCRLF s).
Proof.
  intros Hc. apply Ascii.eqb_neq in Hc.
  destruct s as [|c' s]; [reflexivity|].
  cbn [replaceCRLF]. by rewrite Hc.
Qed.

Lemma replaceCRLF_free (s : string) :
  includes s (String carriage "") = false → replaceCRLF s = s.
Proof.
  induction s as [|c s IH]; [reflexivity|].
  rewrite includes_char_cons. destruct (Ascii.eqb carriage c) eqn:Hc; [discriminate|].
  intros Hs. rewrite replaceCRLF_cons, IH; [reflexivity | exact Hs |].
  intros ->. by rewrite Ascii.eqb_refl in Hc.
Qed.

Lemma replaceCRLF_toCRLF (s : string) :
  includes s (String carriage "") = false → replaceCRLF (toCRLF s) = s.
Proof.
  induction s as [|c s IH]; [reflexivity|].
  rewrite includes_char_cons. destruct (Ascii.eqb carriage c) eqn:Hc; [discriminate|].
  intros Hs. simpl toCRLF. destruct (Ascii.eqb c newline) eqn:Hn.
  - apply Ascii.eqb_eq in Hn as ->.
    change (replaceCRLF (String carriage (String newline (toCRLF s))))
      with (String newline (replaceCRLF (toCRLF s))).
    by rewrite IH.
  - rewrite replaceCRLF_cons, IH; [reflexivity | exact Hs |].
    intros ->. by rewrite Ascii.eqb_refl in Hc.
Qed.

(** X18: the runner compares texts regardless of their line endings: a
    text without carriage returns and the same text with a carriage
    return before every line feed are normalized to the same text. *)
Theorem normalizeWhitespace_line_endings (str : string) :
  includes str (String carriage "") = false →
  normalizeWhitespace (toCRLF str) = normalizeWhitespace str.
Proof.
  intros Hfree. unfold normalizeWhitespace.
  by rewrite replaceCRLF_toCRLF, replaceCRLF_free.
Qed.

Lemma normalizeWhitespace_line_endings_witness :
  normalizeWhitespace (toCRLF ("[2]{id}:" +:+ String newline "  1"))
  = normalizeWhitespace ("[2]{id}:" +:+ String newline "  1").
Proof.
  apply (normalizeWhitespace_line_endings ("[2]{id}:" +:+ String newline "  1")).
  reflexivity.
Defined.

Lemma trimStart_white (w : string) : allWhite w = true → trimStart w = "".
Proof.
  induction w as [|c w IH]; [reflexivity|]. simpl.
  intros [-> Hw]%andb_true_iff. by apply IH.
Qed.

Lemma trimEnd_white (w : string) : allWhite w = true → trimEnd w = "".
Proof.
  induction w as [|c w IH]; [reflexivity|]. simpl.
  intros [-> Hw]%andb_true_iff. by rewrite IH.
Qed.

Lemma trimEnd_app_white (y w : string) :
  allWhite w = true → trimEnd (y +:+ w) = trimEnd y.
Proof.
  intros Hw. induction y as [|c y IH]; [by apply trimEnd_white|].
  change (String c y +:+ w) with (String c (y +:+ w)).
  cbn [trimEnd]. by rewrite IH.
Qed.

Lemma trim_app_white (y w : string) :
  allWhite w = true → trim (y +:+ w) = trim y.
Proof.
  intros Hw. unfold trim. induction y as [|c y IH].
  - simpl. by rewrite trimStart_white.
  - change (String c y +:+ w) with (String c (y +:+ w)). cbn [trimStart].
    destruct (isWhite c); [exact IH|].
    by apply (trimEnd_app_white (String c y)).
Qed.

Lemma replaceCRLF_step (a b : ascii) (rest : string) :
  replaceCRLF (String a (String b rest)) =
    if Ascii.eqb a carriage && Ascii.eqb b newline
    then String newline (replaceCRLF rest)
    else String a (replaceCRLF (String b rest)).
Proof. reflexivity. Qed.

(** Appending a white character changes the text after the line-ending
    replacement only in its trailing white part. *)
Lemma replaceCRLF_snoc (n : nat) (str : string) (c : ascii) :
  (String.length str ≤ n)%nat → isWhite c = true →
  ∃ y w1 w2, allWhite w1 = true ∧ allWhite w2 = true ∧
    replaceCRLF str = y +:+ w1 ∧
    replaceCRLF (str +:+ String c "") = y +:+ w2.
Proof.
  intros Hlen Hc. revert str Hlen.
  induction n as [|n IH]; intros str Hlen.
  - destruct str; [|simpl in Hlen; lia].
    exists "", "", (String c ""). simpl. by rewrite Hc.
  - destruct str as [|a [|b rest]].
    + exists "", "", (String c ""). simpl. by rewrite Hc.
    + simpl. destruct (Ascii.eqb a carriage && Ascii.eqb c newline) eqn:Hmerge.
      * apply andb_true_iff in Hmerge as [->%Ascii.eqb_eq _].
        by exists "", (String carriage ""), (String newline "").
      * exists (String a ""), "", (String c ""). simpl. by rewrite Hc.
    + change ((String a (String b rest)) +:+ String c "")
        with (String a (String b (rest +:+ String c ""))).
      rewrite (replaceCRLF_step a b rest),
        (replaceCRLF_step a b (rest +:+ String c "")).
      destruct (Ascii.eqb a carriage && Ascii.eqb b newline).
      * destruct (IH rest) as (y & w1 & w2 & H1 & H2 & -> & ->);
          [simpl in Hlen; lia|].
        by exists (String newline y), w1, w2.
      * destruct (IH (String b rest)) as (y & w1 & w2 & H1 & H2 & Hy1 & Hy2);
          [simpl in Hlen |- *; lia|].
        change (String b rest +:+ String c "")
          with (String b (rest +:+ String c "")) in Hy2.
        rewrite Hy1, Hy2. by exists (String a y), w1, w2.
Qed.

(** X19: white space at the end of a text, such as a final line feed,
    makes no difference to the comparison: a text and the text with one
    more white character at its end are normalized to the same text. *)
Theorem normalizeWhitespace_trailing (str : string) (c : ascii) :
  isWhite c = true →
  normalizeWhitespace (str +:+ String c "") = normalizeWhitespace str.
Proof.
  intros Hc. unfold normalizeWhitespace.
  destruct (replaceCRLF_snoc (String.length str) str c (le_n _) Hc)
    as (y & w1 & w2 & H1 & H2 & -> & ->).
  by rewrite !trim_app_white.
Qed.

Lemma normalizeWhitespace_trailing_witness :
  normalizeWhitespace ("a: 1" +:+ String newline "")
  = normalizeWhitespace "a: 1".
Proof.
  apply (normalizeWhitespace_trailing "a: 1" newline). reflexivity.
Defined.

End TextProperties.
